(** * Multi-service orchestration engine: dispatcher, ordered fallback
      rephraser, summary generator and the rephrase request flow.

    Shallow embedding of
      - backend/models.py               (ServiceResult, RephraseResponse,
                                         CheckResponse)
      - backend/config.py               (load_config, _substitute_env_vars,
                                         get_enabled_services, get_openai_config)
      - backend/utils/pdf_parser.py     (extract_text_from_pdf)
      - backend/services/plagiarism.py  (check_plagiarism, check_all_plagiarism_services)
      - backend/services/rephraser.py   (rephrase_text_with_openai,
                                         rephrase_text_with_service,
                                         rephrase_with_first_enabled)
      - backend/services/summarizer.py  (generate_summary, _prepare_results_context,
                                         _generate_fallback_summary)
      - backend/main.py                 (check_text, rephrase_text)

    The remote world (httpx, the OpenAI client, the environment, the
    configuration file) is an oracle whose answers may depend on the whole
    history of calls made so far; every outbound call is recorded in a log,
    so that "is never invoked" and "no call attempted" are statements about
    that log.  Python exceptions are values of type [Exc]; a coroutine is a
    function from the log to an outcome (returned value or raised exception)
    and the extended log. *)

From stdpp Require Import gmap strings list fin_maps pretty.
From Stdlib Require Import QArith.

#[local] Set Warnings "-register-all".
#[local] Open Scope Z_scope.

(* ===================================================================== *)
(** ** Python values and exceptions                                       *)
(* ===================================================================== *)

(** A decoded JSON value, as [response.json()] hands it to the program.
    Python strings are modelled as Rocq strings (one [ascii] per character);
    non-finite floats are not represented. *)
Inductive PyVal :=
| PNone
| PBool (b : bool)
| PInt (z : Z)
| PFloat (q : Q)
| PStr (s : string)
| PList (l : list PyVal)
| PDict (d : gmap string PyVal).

(** Python truth value, as tested by [if not x] and by [x or y]. *)
Definition truthy (v : PyVal) : bool :=
  match v with
  | PNone => false
  | PBool b => b
  | PInt z => negb (z =? 0)
  | PFloat q => negb (Qeq_bool q 0)
  | PStr s => negb (String.eqb s "")
  | PList l => match l with [] => false | _ => true end
  | PDict d => negb (bool_decide (d = ∅))
  end.

(** Truth value of a [str]: only the empty string is false. *)
Definition str_truthy (s : string) : bool := negb (String.eqb s "").

(** Truth value of a [str | None]. *)
Definition opt_truthy (o : option string) : bool :=
  match o with
  | None => false
  | Some s => str_truthy s
  end.

(** The exceptions the modelled code distinguishes.  Every constructor is a
    subclass of Python's [Exception]; [PyException] stands for any class the
    handlers do not name (connection errors, JSON decoding errors, pydantic's
    ValidationError, AttributeError, IndexError, ...).  Signals that derive
    from BaseException only (task cancellation, interpreter exit) are outside
    the model. *)
Inductive Exc :=
| TimeoutException (msg : string)                  (* httpx.TimeoutException *)
| HTTPStatusError (status_code : Z) (msg : string) (* httpx.HTTPStatusError, e.response.status_code *)
| FileNotFoundError (msg : string)
| HTTPException (status_code : Z) (detail : string) (* fastapi.HTTPException *)
| PyException (msg : string).

(** [str(e)]. *)
Definition exc_str (e : Exc) : string :=
  match e with
  | TimeoutException msg => msg
  | HTTPStatusError _ msg => msg
  | FileNotFoundError msg => msg
  | HTTPException status_code detail => pretty status_code +:+ ": " +:+ detail
  | PyException msg => msg
  end.

(** Outcome of running a piece of Python code. *)
Inductive Outcome (A : Type) :=
| Returned (a : A)
| Raised (e : Exc).
Arguments Returned {A} a.
Arguments Raised {A} e.

(* ===================================================================== *)
(** ** backend/models.py                                                  *)
(* ===================================================================== *)

(** [class ServiceResult(BaseModel)]: [result] defaults to the empty dict
    and [error] to [None]. *)
Record ServiceResult := mkServiceResult {
  service_name : string;
  service_type : string;
  success : bool;
  result : gmap string PyVal;
  error : option string
}.

(** [class RephraseResponse(BaseModel)]. *)
Record RephraseResponse := mkRephraseResponse {
  summary : string;
  rephrased_text : string;
  plagiarism_results : list ServiceResult;
  ai_detection_results : list ServiceResult;
  original_text : string
}.

(* ===================================================================== *)
(** ** Configuration (backend/config.py)                                  *)
(* ===================================================================== *)

(** One entry of a service list of the configuration: a dict whose keys
    [name], [api_url], [api_key] hold strings and [enabled] a boolean; a
    field is [None] when the key is absent (the code reads every key with
    [.get(key, default)]). *)
Record ServiceConfig := mkServiceConfig {
  cfg_name : option string;
  cfg_api_url : option string;
  cfg_api_key : option string;
  cfg_enabled : option bool
}.

(** The loaded configuration: [config["services"]] maps a category key to
    its list of entries, [config["openai"]] holds [api_key] and [model]. *)
Record Config := mkConfig {
  config_services : option (gmap string (list ServiceConfig));
  config_openai : option (gmap string string)
}.

(* ===================================================================== *)
(** ** Outbound calls and the world that answers them                     *)
(* ===================================================================== *)

(** [httpx.AsyncClient(timeout=...).post(url, json=..., headers=...)]. *)
Record HttpRequest := mkHttpRequest {
  req_timeout : Q;
  req_url : string;
  req_json : gmap string PyVal;
  req_headers : gmap string string
}.

(** [AsyncOpenAI(api_key=...).chat.completions.create(model=...,
    messages=..., temperature=...)]. *)
Record ChatRequest := mkChatRequest {
  chat_api_key : string;
  chat_model : string;
  chat_messages : list (gmap string PyVal);
  chat_temperature : Q
}.

Inductive Event :=
| HttpPost (r : HttpRequest)
| ChatCreate (r : ChatRequest).

(** The environment of one request.
    - [http_post log r]: what happens to the three library calls
      [client.post(...)], [response.raise_for_status()], [response.json()]
      when the calls in [log] have been made before: they raise, or the body
      decodes to a JSON object.  A body that decodes to something else ends in
      the [except Exception] handler of either caller (pydantic rejects it as
      [result], and it has no [.get]); it is covered by [Raised (PyException _)].
    - [chat_create log r]: the client construction, the completion call and
      the read of [response.choices[0].message.content] either raise or give
      the content, which may be [None].
    - [getenv]: [os.getenv] without default.
    - [load_config]: [backend.config.load_config()], which reads the YAML
      file.
    - [py_str], [py_slice500], [pydantic_str]: what the Python runtime does
      with a value that is not a [str] where the code formats it, slices it
      with [[:500]], or stores it in a [str] field of a response model. *)
Record World := mkWorld {
  http_post : list Event → HttpRequest → Outcome (gmap string PyVal);
  chat_create : list Event → ChatRequest → Outcome (option string);
  getenv : string → option string;
  load_config : Outcome Config;
  py_str : PyVal → string;
  py_slice500 : PyVal → Outcome PyVal;
  pydantic_str : PyVal → Outcome string
}.

(* ===================================================================== *)
(** ** The coroutine monad: call log and exceptions                       *)
(* ===================================================================== *)

Definition M (A : Type) : Type := list Event → Outcome A * list Event.

#[global] Instance M_ret : MRet M := λ A a log, (Returned a, log).

#[global] Instance M_bind : MBind M := λ A B f m log,
  match m log with
  | (Returned a, log') => f a log'
  | (Raised e, log') => (Raised e, log')
  end.

(** [raise e]. *)
Definition raise {A} (e : Exc) : M A := λ log, (Raised e, log).

(** [try: body  except Exception as e: handler(e)] where the handlers
    together catch every [Exception]. *)
Definition try_except {A} (body : M A) (handler : Exc → M A) : M A := λ log,
  match body log with
  | (Returned a, log') => (Returned a, log')
  | (Raised e, log') => handler e log'
  end.

(** Lift an outcome that needs no outbound call. *)
Definition lift_outcome {A} (o : Outcome A) : M A := λ log, (o, log).

Definition nl : string := String (Ascii.ascii_of_nat 10) EmptyString.

Section Engine.

Variable W : World.

(** The recorded outbound calls.  An event is recorded when the call is
    attempted, whatever comes of it: for [create] the attempt starts with
    building the client, so when [chat_create] raises, the exception may come
    from the constructor, before any request has left.  The log therefore
    bounds the calls made from above; that a completion call was really made
    is known where [chat_create] returned. *)
Definition post (r : HttpRequest) : M (gmap string PyVal) := λ log,
  (http_post W log r, log ++ [HttpPost r]).

Definition create (r : ChatRequest) : M (option string) := λ log,
  (chat_create W log r, log ++ [ChatCreate r]).

(* ===================================================================== *)
(** ** backend/services/plagiarism.py                                     *)
(* ===================================================================== *)

(** The request both HTTP callers build:
    [client.post(api_url, json={"text": text}, headers={...})] under
    [httpx.AsyncClient(timeout=30.0)]. *)
Definition service_request (text : PyVal) (api_url api_key : string) : HttpRequest :=
  {| req_timeout := 30;
     req_url := api_url;
     req_json := {[ "text" := text ]};
     req_headers := {[ "Authorization" := "Bearer " +:+ api_key;
                       "Content-Type" := "application/json" ]} |}.

Definition check_plagiarism (text : PyVal) (service_config : ServiceConfig)
  : M ServiceResult :=
  let service_name := default "Unknown Service" (cfg_name service_config) in
  let api_url := default "" (cfg_api_url service_config) in
  let api_key := default "" (cfg_api_key service_config) in
  try_except
    (result_data ← post (service_request text api_url api_key);
     mret (mkServiceResult service_name "plagiarism" true result_data None))
    (λ e,
      match e with
      | TimeoutException _ =>
          mret (mkServiceResult service_name "plagiarism" false ∅
                  (Some "Request timed out"))
      | HTTPStatusError status_code _ =>
          mret (mkServiceResult service_name "plagiarism" false ∅
                  (Some ("HTTP error: " +:+ pretty status_code)))
      | _ =>
          mret (mkServiceResult service_name "plagiarism" false ∅
                  (Some (exc_str e)))
      end).

(** The loop of [check_all_plagiarism_services]: [results] is the list
    built so far, [results.append(result)] adds at its end. *)
Fixpoint check_all_loop (text : PyVal) (services : list ServiceConfig)
    (results : list ServiceResult) : M (list ServiceResult) :=
  match services with
  | [] => mret results
  | service :: rest =>
      result ← check_plagiarism text service;
      check_all_loop text rest (results ++ [result])
  end.

Definition check_all_plagiarism_services (text : PyVal)
    (services : list ServiceConfig) : M (list ServiceResult) :=
  check_all_loop text services [].

(* ===================================================================== *)
(** ** backend/services/rephraser.py                                      *)
(* ===================================================================== *)

Definition rephraser_system_prompt : string :=
  "You are a professional editor. Rephrase the following text to make it more original while preserving its meaning. Make it sound natural and human-written. Do not add any explanations, just provide the rephrased text.".

(** [{"role": role, "content": content}]. *)
Definition message (role : string) (content : PyVal) : gmap string PyVal :=
  {[ "role" := PStr role; "content" := content ]}.

(** The arguments of [client.chat.completions.create] in
    [rephrase_text_with_openai], with the key the client was built with. *)
Definition rephrase_request (text : PyVal) (api_key : string) : ChatRequest :=
  {| chat_api_key := api_key;
     chat_model := "gpt-4";
     chat_messages := [ message "system" (PStr rephraser_system_prompt);
                        message "user" text ];
     chat_temperature := 7 # 10 |}.

Definition rephrase_text_with_openai (text : PyVal) (api_key : string)
  : M (PyVal * ServiceResult) :=
  try_except
    (content ← create (rephrase_request text api_key);
     (* response.choices[0].message.content or "" *)
     let rephrased := if opt_truthy content then default "" content else "" in
     mret (PStr rephrased,
           mkServiceResult "OpenAI Rephraser" "rephrasing" true
             {[ "rephrased_text" := PStr rephrased ]} None))
    (λ e,
      mret (PStr "",
            mkServiceResult "OpenAI Rephraser" "rephrasing" false ∅
              (Some (exc_str e)))).

(** [result_data.get("rephrased_text", result_data.get("text", ""))]. *)
Definition extract_rephrased (result_data : gmap string PyVal) : PyVal :=
  default (default (PStr "") (result_data !! "text"))
          (result_data !! "rephrased_text").

Definition rephrase_text_with_service (text : PyVal)
    (service_config : ServiceConfig) : M (PyVal * ServiceResult) :=
  let service_name := default "Unknown Service" (cfg_name service_config) in
  let api_url := default "" (cfg_api_url service_config) in
  let api_key := default "" (cfg_api_key service_config) in
  if String.eqb api_url "openai" then
    let openai_key :=
      if str_truthy api_key then api_key
      else default "" (getenv W "OPENAI_API_KEY") in
    rephrase_text_with_openai text openai_key
  else
    try_except
      (result_data ← post (service_request text api_url api_key);
       let rephrased := extract_rephrased result_data in
       mret (rephrased,
             mkServiceResult service_name "rephrasing" true result_data None))
      (λ e,
        match e with
        | TimeoutException _ =>
            mret (PStr "",
                  mkServiceResult service_name "rephrasing" false ∅
                    (Some "Request timed out"))
        | HTTPStatusError status_code _ =>
            mret (PStr "",
                  mkServiceResult service_name "rephrasing" false ∅
                    (Some ("HTTP error: " +:+ pretty status_code)))
        | _ =>
            mret (PStr "",
                  mkServiceResult service_name "rephrasing" false ∅
                    (Some (exc_str e)))
        end).

(** The [for service in services] loop of [rephrase_with_first_enabled]
    together with the code after it; [last_result] is the loop's variable of
    that name. *)
Fixpoint rephrase_loop (text : PyVal) (services : list ServiceConfig)
    (last_result : option ServiceResult) : M (PyVal * ServiceResult) :=
  match services with
  | service :: rest =>
      '(rephrased, result) ← rephrase_text_with_service text service;
      if success result then mret (rephrased, result)
      else rephrase_loop text rest (Some result)
  | [] =>
      match last_result with
      | Some r => mret (PStr "", r)
      | None =>
          mret (PStr "",
                mkServiceResult "None" "rephrasing" false ∅
                  (Some "No rephrasing services available"))
      end
  end.

Definition rephrase_with_first_enabled (text : PyVal)
    (services : list ServiceConfig) : M (PyVal * ServiceResult) :=
  match services with
  | [] =>
      mret (PStr "",
            mkServiceResult "None" "rephrasing" false ∅
              (Some "No rephrasing services enabled"))
  | _ => rephrase_loop text services None
  end.

(* ===================================================================== *)
(** ** backend/services/summarizer.py                                     *)
(* ===================================================================== *)

(** What an f-string puts for [{v}]. *)
Definition py_format (v : PyVal) : string :=
  match v with
  | PStr s => s
  | _ => py_str W v
  end.

(** [{r.error}] for a [str | None]. *)
Definition format_error (o : option string) : string := default "None" o.

(** [text[:500]]. *)
Definition slice500 (v : PyVal) : Outcome PyVal :=
  match v with
  | PStr s => Returned (PStr (String.substring 0 500 s))
  | _ => py_slice500 W v
  end.

Definition context_line (r : ServiceResult) : string :=
  if success r
  then "- " +:+ service_name r +:+ ": " +:+ py_str W (PDict (result r)) +:+ nl
  else "- " +:+ service_name r +:+ ": Error - " +:+ format_error (error r) +:+ nl.

Definition _prepare_results_context (text : PyVal)
    (plagiarism_results ai_detection_results : list ServiceResult)
  : Outcome string :=
  match slice500 text with
  | Raised e => Raised e
  | Returned head =>
      let context_parts :=
        [ "Text being analyzed (first 500 chars): " +:+ py_format head +:+ "..." +:+ nl +:+ nl ] in
      let context_parts := context_parts ++ [ "PLAGIARISM CHECK RESULTS:" +:+ nl ] in
      let context_parts :=
        match plagiarism_results with
        | [] => context_parts ++ [ "- No plagiarism checkers were enabled or available." +:+ nl ]
        | _ => context_parts ++ map context_line plagiarism_results
        end in
      let context_parts := context_parts ++ [ nl +:+ "AI DETECTION RESULTS:" +:+ nl ] in
      let context_parts :=
        match ai_detection_results with
        | [] => context_parts ++ [ "- No AI detectors were enabled or available." +:+ nl ]
        | _ => context_parts ++ map context_line ai_detection_results
        end in
      Returned (String.concat "" context_parts)
  end.

(** The line of a failed service in the fallback summary:
    [f"- **{result.service_name}**: {result.error}\n"]. *)
Definition failed_line (r : ServiceResult) : string :=
  "- **" +:+ service_name r +:+ "**: " +:+ format_error (error r) +:+ nl.

Definition _generate_fallback_summary
    (plagiarism_results ai_detection_results : list ServiceResult)
    (error : option string) : string :=
  let parts := [ "## Analysis Summary" +:+ nl +:+ nl ] in
  let parts :=
    if opt_truthy error
    then parts ++ [ "*Note: AI summary generation encountered an issue: "
                    +:+ format_error error +:+ "*" +:+ nl +:+ nl ]
    else parts in
  let parts := parts ++ [ "### Plagiarism Check" +:+ nl ] in
  let parts :=
    match plagiarism_results with
    | [] => parts ++ [ "No plagiarism checkers were enabled." +:+ nl ]
    | _ =>
        let successful := List.filter success plagiarism_results in
        let failed := List.filter (λ r, negb (success r)) plagiarism_results in
        parts
          ++ map (λ r, "- **" +:+ service_name r +:+ "**: Check completed" +:+ nl) successful
          ++ map failed_line failed
    end in
  let parts := parts ++ [ nl +:+ "### AI Content Detection" +:+ nl ] in
  let parts :=
    match ai_detection_results with
    | [] => parts ++ [ "No AI detectors were enabled." +:+ nl ]
    | _ =>
        let successful := List.filter success ai_detection_results in
        let failed := List.filter (λ r, negb (success r)) ai_detection_results in
        parts
          ++ map (λ r, "- **" +:+ service_name r +:+ "**: Detection completed" +:+ nl) successful
          ++ map failed_line failed
    end in
  let parts := parts ++ [ nl +:+ "### Recommendations" +:+ nl ] in
  let parts := parts ++ [ "Review the detailed results from each service to understand the analysis findings." +:+ nl ] in
  String.concat "" parts.

Definition indent20 : string := "                    ".

Definition summarizer_system_prompt : string :=
  "You are an expert at analyzing plagiarism and AI detection results. " +:+ nl +:+
  indent20 +:+ "Generate a clear, helpful summary for the user. Include:" +:+ nl +:+
  indent20 +:+ "1. How much plagiarism was found (percentage if available)" +:+ nl +:+
  indent20 +:+ "2. How much AI-generated content was detected" +:+ nl +:+
  indent20 +:+ "3. Which parts look suspicious (if identifiable)" +:+ nl +:+
  indent20 +:+ "4. What the user should do next (clear recommendations)" +:+ nl +:+
  indent20 +:+ nl +:+
  indent20 +:+ "Be concise but thorough. Use a friendly, helpful tone.".

(** The arguments of [client.chat.completions.create] in
    [generate_summary], with the key the client was built with. *)
Definition summary_request (context openai_api_key openai_model : string)
  : ChatRequest :=
  {| chat_api_key := openai_api_key;
     chat_model := openai_model;
     chat_messages := [ message "system" (PStr summarizer_system_prompt);
                        message "user" (PStr context) ];
     chat_temperature := 5 # 10 |}.

Definition generate_summary (text : PyVal)
    (plagiarism_results ai_detection_results : list ServiceResult)
    (openai_api_key openai_model : string) : M string :=
  if negb (str_truthy openai_api_key) then
    mret (_generate_fallback_summary plagiarism_results ai_detection_results None)
  else
    try_except
      (context ← lift_outcome
         (_prepare_results_context text plagiarism_results ai_detection_results);
       content ← create (summary_request context openai_api_key openai_model);
       (* response.choices[0].message.content or _generate_fallback_summary(...) *)
       mret (if opt_truthy content then default "" content
             else _generate_fallback_summary plagiarism_results ai_detection_results None))
      (λ e,
        mret (_generate_fallback_summary plagiarism_results ai_detection_results
                (Some (exc_str e)))).

(* ===================================================================== *)
(** ** backend/services/ai_detector.py                                    *)
(* ===================================================================== *)

(** Modelled from the spec: the module backend/services/ai_detector.py,
    which main.py imports [detect_all_ai_services] from, is not among the
    sources.  The spec has one Category Dispatcher "used for both plagiarism
    and AI-detection categories", so the AI-detection dispatch is the
    plagiarism dispatch with the service type [ai_detection]. *)
Definition detect_ai (text : PyVal) (service_config : ServiceConfig)
  : M ServiceResult :=
  let service_name := default "Unknown Service" (cfg_name service_config) in
  let api_url := default "" (cfg_api_url service_config) in
  let api_key := default "" (cfg_api_key service_config) in
  try_except
    (result_data ← post (service_request text api_url api_key);
     mret (mkServiceResult service_name "ai_detection" true result_data None))
    (λ e,
      match e with
      | TimeoutException _ =>
          mret (mkServiceResult service_name "ai_detection" false ∅
                  (Some "Request timed out"))
      | HTTPStatusError status_code _ =>
          mret (mkServiceResult service_name "ai_detection" false ∅
                  (Some ("HTTP error: " +:+ pretty status_code)))
      | _ =>
          mret (mkServiceResult service_name "ai_detection" false ∅
                  (Some (exc_str e)))
      end).

(** Modelled from the spec: the loop of the AI-detection dispatch, one
    call per service in the order of the list (see [detect_ai]). *)
Fixpoint detect_all_loop (text : PyVal) (services : list ServiceConfig)
    (results : list ServiceResult) : M (list ServiceResult) :=
  match services with
  | [] => mret results
  | service :: rest =>
      result ← detect_ai text service;
      detect_all_loop text rest (results ++ [result])
  end.

(** Modelled from the spec: see [detect_ai]. *)
Definition detect_all_ai_services (text : PyVal)
    (services : list ServiceConfig) : M (list ServiceResult) :=
  detect_all_loop text services [].

(* ===================================================================== *)
(** ** backend/config.py                                                  *)
(* ===================================================================== *)

(** [config.get("services", {}).get(service_type, [])] filtered by
    [s.get("enabled", False)]. *)
Definition get_enabled_services (config : Config) (service_type : string)
  : list ServiceConfig :=
  let services := default [] (default ∅ (config_services config) !! service_type) in
  List.filter (λ s, default false (cfg_enabled s)) services.

Record OpenAIConfig := mkOpenAIConfig {
  openai_api_key : string;
  openai_model : string
}.

Definition get_openai_config (config : Config) : OpenAIConfig :=
  let openai_config := default ∅ (config_openai config) in
  {| openai_api_key :=
       default (default "" (getenv W "OPENAI_API_KEY")) (openai_config !! "api_key");
     openai_model := default "gpt-4" (openai_config !! "model") |}.

(* ===================================================================== *)
(** ** backend/main.py                                                    *)
(* ===================================================================== *)

(** The characters [str.strip()] removes, among the code points below 256. *)
Definition is_space (c : Ascii.ascii) : bool :=
  let n := Ascii.N_of_ascii c in
  ((9 <=? n) && (n <=? 13) || (28 <=? n) && (n <=? 32) || (n =? 133) || (n =? 160))%N.

(** [not text.strip()]: nothing is left once the white space is stripped. *)
Fixpoint strip_is_empty (text : string) : bool :=
  match text with
  | EmptyString => true
  | String c rest => is_space c && strip_is_empty rest
  end.

(** [RephraseResponse(... rephrased_text=v ...)]: a [str] field. *)
Definition as_str_field (v : PyVal) : Outcome string :=
  match v with
  | PStr s => Returned s
  | _ => pydantic_str W v
  end.

(** The handler of [POST /rephrase]. *)
Definition rephrase_text (text : string) : M RephraseResponse :=
  if negb (str_truthy text) || strip_is_empty text then
    raise (HTTPException 400 "No text provided for rephrasing.")
  else
    config ← try_except (lift_outcome (load_config W))
               (λ e, match e with
                     | FileNotFoundError _ => raise (HTTPException 500 (exc_str e))
                     | _ => raise e
                     end);
    let rephrasing_services := get_enabled_services config "rephrasing" in
    let plagiarism_services := get_enabled_services config "plagiarism_checkers" in
    let ai_detector_services := get_enabled_services config "ai_detectors" in
    let openai_config := get_openai_config config in
    '(rephrased_text, rephrase_result) ←
        rephrase_with_first_enabled (PStr text) rephrasing_services;
    if negb (success rephrase_result) then
      raise (HTTPException 500
               ("Rephrasing failed: " +:+ format_error (error rephrase_result)))
    else if negb (truthy rephrased_text) then
      raise (HTTPException 500 "Rephrasing returned empty text")
    else
      plagiarism_results ← check_all_plagiarism_services rephrased_text plagiarism_services;
      ai_detection_results ← detect_all_ai_services rephrased_text ai_detector_services;
      summary ← generate_summary rephrased_text plagiarism_results ai_detection_results
                  (openai_api_key openai_config) (openai_model openai_config);
      rephrased_str ← lift_outcome (as_str_field rephrased_text);
      mret (mkRephraseResponse summary rephrased_str plagiarism_results
              ai_detection_results text).

End Engine.

(* ===================================================================== *)
(** ** Strings as Python slices them                                      *)
(* ===================================================================== *)

(** [s.startswith(prefix)] and [s.endswith(suffix)]. *)
Definition startswith (s prefix : string) : bool := String.prefix prefix s.

Definition endswith (s suffix : string) : bool :=
  (String.length suffix <=? String.length s)%nat
  && String.eqb
       (String.substring (String.length s - String.length suffix)
          (String.length suffix) s)
       suffix.

(** [c.lower()] for the code points below 256: the letters A to Z and the
    accented capitals 192 to 222 (the multiplication sign 215 apart) move up
    by 32. *)
Definition lower_char (c : Ascii.ascii) : Ascii.ascii :=
  let n := Ascii.N_of_ascii c in
  if ((65 <=? n) && (n <=? 90) || (192 <=? n) && (n <=? 222) && negb (n =? 215))%N
  then Ascii.ascii_of_N (n + 32)
  else c.

(** [s.lower()]. *)
Fixpoint lower (s : string) : string :=
  match s with
  | EmptyString => EmptyString
  | String c rest => String (lower_char c) (lower rest)
  end.

(* ===================================================================== *)
(** ** backend/config.py: the configuration file                          *)
(* ===================================================================== *)

(** The file system and the YAML parser as [load_config] uses them:
    [Path(p).exists()], and [open(p)] followed by [yaml.safe_load], which
    raises or gives the parsed document.  The functions of this part work on
    the parsed document itself; the handlers see the outcome of
    [load_config()] through the field [load_config] of the world, with the
    entries they read typed as a [Config]. *)
Record FileSystem := mkFileSystem {
  path_exists : string → bool;
  yaml_safe_load : string → Outcome PyVal
}.

Module ConfigFile.

(** [obj.startswith("${") and obj.endswith("}")]. *)
Definition is_placeholder (obj : string) : bool :=
  startswith obj "${" && endswith obj "}".

(** [obj[2:-1]]. *)
Definition env_var (obj : string) : string :=
  String.substring 2 (String.length obj - 3) obj.

(** The parsed YAML document is a [PyVal]: strings, mappings, sequences and
    the other scalars, which are returned unchanged. *)
Fixpoint _substitute_env_vars (W : World) (obj : PyVal) : PyVal :=
  match obj with
  | PStr s =>
      if is_placeholder s
      then PStr (default "" (getenv W (env_var s)))
      else PStr s
  | PDict d => PDict (_substitute_env_vars W <$> d)
  | PList l => PList (map (_substitute_env_vars W) l)
  | _ => obj
  end.

Definition load_config (W : World) (FS : FileSystem)
    (config_path : option string) : Outcome PyVal :=
  let config_path :=
    match config_path with
    | None => default "config/services.yaml" (getenv W "CONFIG_PATH")
    | Some path => path
    end in
  if negb (path_exists FS config_path) then
    Raised (FileNotFoundError ("Configuration file not found: " +:+ config_path))
  else
    match yaml_safe_load FS config_path with
    | Raised e => Raised e
    | Returned config => Returned (_substitute_env_vars W config)
    end.

End ConfigFile.

(* ===================================================================== *)
(** ** backend/utils/pdf_parser.py                                        *)
(* ===================================================================== *)

(** [pdfplumber.open(pdf_bytes)]: it raises, or gives the pages of the
    document, each with what its [extract_text()] does when it is reached:
    raise, or return the text of the page, which may be [None]. *)
Record PdfLibrary := mkPdfLibrary {
  pdfplumber_open : list Byte.byte → Outcome (list (Outcome (option string)))
}.

(** A [BinaryIO]: what its [read()] does. *)
Record BinaryIO := mkBinaryIO {
  bio_read : Outcome (list Byte.byte)
}.

(** [io.BytesIO(content)]. *)
Definition BytesIO (content : list Byte.byte) : BinaryIO :=
  {| bio_read := Returned content |}.

(** What [extract_text_from_pdf] does: it returns the text or raises a
    [ValueError] with a message. *)
Inductive Extraction :=
| Extracted (text : string)
| ValueError (msg : string).

(** The loop over [pdf.pages]; [text_parts] is the list built so far. *)
Fixpoint collect_page_texts (pages : list (Outcome (option string)))
    (text_parts : list string) : Outcome (list string) :=
  match pages with
  | [] => Returned text_parts
  | page :: rest =>
      match page with
      | Raised e => Raised e
      | Returned page_text =>
          if opt_truthy page_text
          then collect_page_texts rest (text_parts ++ [default "" page_text])
          else collect_page_texts rest text_parts
      end
  end.

(** The handler [except Exception as e] looks at [str(e)] only, so the
    [ValueError] raised inside the [try] for a document without text is
    written as the exception with that text. *)
Definition extract_text_from_pdf (P : PdfLibrary) (pdf_file : BinaryIO)
  : Extraction :=
  let body : Outcome string :=
    match bio_read pdf_file with
    | Raised e => Raised e
    | Returned content =>
        match pdfplumber_open P content with
        | Raised e => Raised e
        | Returned pages =>
            match collect_page_texts pages [] with
            | Raised e => Raised e
            | Returned text_parts =>
                match text_parts with
                | [] => Raised (PyException "No text content found in PDF")
                | _ => Returned (String.concat (nl +:+ nl) text_parts)
                end
            end
        end
    end in
  match body with
  | Returned text => Extracted text
  | Raised e => ValueError ("Failed to extract text from PDF: " +:+ exc_str e)
  end.

(* ===================================================================== *)
(** ** backend/main.py: the handler of [POST /check]                      *)
(* ===================================================================== *)

(** [class CheckResponse(BaseModel)]. *)
Module CheckResponse.
Record t := mk {
  summary : string;
  plagiarism_results : list ServiceResult;
  ai_detection_results : list ServiceResult;
  original_text : string
}.
End CheckResponse.

(** What [await file.read()] does: it gives the content, raises a
    [ValueError], or raises another exception. *)
Inductive UploadRead :=
| ReadContent (content : list Byte.byte)
| ReadValueError (msg : string)
| ReadRaised (e : Exc).

(** An [UploadFile]: its [filename], which may be [None], and its [read]. *)
Record UploadFile := mkUploadFile {
  upload_filename : option string;
  upload_read : UploadRead
}.

Section CheckFlow.

Variable W : World.
Variable P : PdfLibrary.

(** The first part of [check_text]: the text to check, from the upload when
    there is one. *)
Definition uploaded_text (text : option string) (file : option UploadFile)
  : M (option string) :=
  match file with
  | None => mret text
  | Some file =>
      if negb (opt_truthy (upload_filename file))
         || negb (endswith (lower (default "" (upload_filename file))) ".pdf")
      then raise (HTTPException 400 "Only PDF files are supported")
      else
        match upload_read file with
        | ReadRaised e => raise e
        | ReadValueError msg => raise (HTTPException 400 msg)
        | ReadContent content =>
            match extract_text_from_pdf P (BytesIO content) with
            | ValueError msg => raise (HTTPException 400 msg)
            | Extracted text => mret (Some text)
            end
        end
  end.

Definition check_text (text : option string) (file : option UploadFile)
  : M CheckResponse.t :=
  text ← uploaded_text text file;
  if negb (opt_truthy text) || strip_is_empty (default "" text) then
    raise (HTTPException 400
             "No text provided. Please provide text or upload a PDF file.")
  else
    let text := default "" text in
    config ← try_except (lift_outcome (load_config W))
               (λ e, match e with
                     | FileNotFoundError _ => raise (HTTPException 500 (exc_str e))
                     | _ => raise e
                     end);
    let plagiarism_services := get_enabled_services config "plagiarism_checkers" in
    let ai_detector_services := get_enabled_services config "ai_detectors" in
    let openai_config := get_openai_config W config in
    plagiarism_results ← check_all_plagiarism_services W (PStr text) plagiarism_services;
    ai_detection_results ← detect_all_ai_services W (PStr text) ai_detector_services;
    summary ← generate_summary W (PStr text) plagiarism_results ai_detection_results
                (openai_api_key openai_config) (openai_model openai_config);
    mret (CheckResponse.mk summary plagiarism_results ai_detection_results text).

End CheckFlow.

(* ===================================================================== *)
(** ** Vocabulary of the properties                                       *)
(* ===================================================================== *)

(** The request a dispatch call sends for one configured service. *)
Definition dispatch_request (text : PyVal) (service : ServiceConfig) : HttpRequest :=
  service_request text (default "" (cfg_api_url service))
                       (default "" (cfg_api_key service)).

(** The outbound call one attempt on a rephrasing service makes. *)
Definition call_event (W : World) (text : PyVal) (service : ServiceConfig) : Event :=
  if String.eqb (default "" (cfg_api_url service)) "openai"
  then ChatCreate
         (rephrase_request text
            (if str_truthy (default "" (cfg_api_key service))
             then default "" (cfg_api_key service)
             else default "" (getenv W "OPENAI_API_KEY")))
  else HttpPost (dispatch_request text service).

(** Attempt the services of [services] one after the other, starting from
    [log]: [Some log'] when every attempt came back with [success = False],
    [log'] being the log after the last of them. *)
Fixpoint run_failing (W : World) (text : PyVal) (services : list ServiceConfig)
    (log : list Event) : option (list Event) :=
  match services with
  | [] => Some log
  | service :: rest =>
      match rephrase_text_with_service W text service log with
      | (Returned (_, r), log') =>
          if success r then None else run_failing W text rest log'
      | (Raised _, _) => None
      end
  end.

(** The failure shape of the data model: no payload and an error text that
    is not empty. *)
Definition failure_shape (r : ServiceResult) : Prop :=
  success r = false ∧ result r = ∅ ∧ opt_truthy (error r) = true.

(** The invariant of the data model:
    [success=true ⇒ error is empty] and
    [success=false ⇒ payload is empty and error is non-empty]. *)
Definition result_invariant (r : ServiceResult) : Prop :=
  (success r = true → opt_truthy (error r) = false) ∧
  (success r = false → result r = ∅ ∧ opt_truthy (error r) = true).

(** The same with the error text of a failure only required to be set. *)
Definition result_invariant_set (r : ServiceResult) : Prop :=
  (success r = true → error r = None) ∧
  (success r = false → result r = ∅ ∧ is_Some (error r)).

(** The ServiceResults the core components hand out: the result of a
    dispatch call, an element of the list a category dispatch returns, and
    the result returned by each of the three rephrasing functions. *)
Inductive produced (W : World) (r : ServiceResult) : Prop :=
| produced_check_plagiarism text service log log' :
    check_plagiarism W text service log = (Returned r, log') → produced W r
| produced_check_all text services log log' results :
    check_all_plagiarism_services W text services log = (Returned results, log') →
    r ∈ results → produced W r
| produced_openai text api_key log log' v :
    rephrase_text_with_openai W text api_key log = (Returned (v, r), log') →
    produced W r
| produced_service text service log log' v :
    rephrase_text_with_service W text service log = (Returned (v, r), log') →
    produced W r
| produced_first_enabled text services log log' v :
    rephrase_with_first_enabled W text services log = (Returned (v, r), log') →
    produced W r.

(** The answers to HTTP calls do not depend on the calls made before. *)
Definition history_free (W : World) : Prop :=
  ∀ log1 log2 r, http_post W log1 r = http_post W log2 r.

(** No exception that reaches an [except Exception as e] handler whose
    result carries [str(e)] has an empty message. *)
Definition messages_nonempty (W : World) : Prop :=
  (∀ log r e, http_post W log r = Raised e →
     match e with
     | TimeoutException _ | HTTPStatusError _ _ => True
     | _ => exc_str e ≠ ""
     end) ∧
  (∀ log r e, chat_create W log r = Raised e → exc_str e ≠ "").

(** What holds of a result in every world, and what holds in addition when
    no caught exception has an empty message. *)
Definition well_formed (W : World) (r : ServiceResult) : Prop :=
  result_invariant_set r ∧ (messages_nonempty W → result_invariant r).

(** What the language-model path of [generate_summary] meets: the exception
    raised while the context is prepared or by the completion call, or the
    content of the completion. *)
Definition llm_outcome (W : World) (text : PyVal)
    (plagiarism_results ai_detection_results : list ServiceResult)
    (openai_api_key openai_model : string) (log : list Event)
  : Outcome (option string) :=
  match _prepare_results_context W text plagiarism_results ai_detection_results with
  | Raised e => Raised e
  | Returned context =>
      chat_create W log (summary_request context openai_api_key openai_model)
  end.

(** The lines of one category section of the deterministic summary. *)
Definition section_text (none_enabled completed : string)
    (results : list ServiceResult) : string :=
  String.concat ""
    match results with
    | [] => [ none_enabled +:+ nl ]
    | _ => map (λ r, "- **" +:+ service_name r +:+ "**: " +:+ completed +:+ nl)
               (List.filter success results)
           ++ map failed_line (List.filter (λ r, negb (success r)) results)
    end.

(** What the deterministic summary reads of a result. *)
Definition result_view (r : ServiceResult) : string * bool * option string :=
  (service_name r, success r, error r).

(** The line of a result in its category section, [completed] being the
    text for a success of that category. *)
Definition summary_line (completed : string) (r : ServiceResult) : string :=
  if success r
  then "- **" +:+ service_name r +:+ "**: " +:+ completed +:+ nl
  else failed_line r.

(** A parsed document in which no string has the form of a placeholder,
    a dollar sign and an opening brace at its start and a closing brace at
    its end, at any depth. *)
Inductive placeholder_free : PyVal → Prop :=
| pf_none : placeholder_free PNone
| pf_bool b : placeholder_free (PBool b)
| pf_int z : placeholder_free (PInt z)
| pf_float q : placeholder_free (PFloat q)
| pf_str s :
    (∀ name, s ≠ "${" +:+ name +:+ "}") → placeholder_free (PStr s)
| pf_list l :
    (∀ v, v ∈ l → placeholder_free v) → placeholder_free (PList l)
| pf_dict d :
    (∀ k v, d !! k = Some v → placeholder_free v) → placeholder_free (PDict d).

(** The texts of the pages that have one: [None] and the empty string are
    left out. *)
Definition page_texts (texts : list (option string)) : list string :=
  omap (λ t, match t with
             | Some (String c rest) => Some (String c rest)
             | _ => None
             end) texts.

(** The lines of one category in the deterministic template, spelled out
    from the specification's words and without the helpers of the code: a
    category without results has its "none enabled" line; otherwise each
    successful service has a line with the category's "completed" text, and
    after these each failed service has a line with its error string. *)
Definition template_section (none_enabled completed : string)
    (results : list ServiceResult) : list string :=
  match results with
  | [] => [ none_enabled +:+ nl ]
  | _ =>
      map (λ r, "- **" +:+ service_name r +:+ "**: " +:+ completed +:+ nl)
          (List.filter success results)
      ++ map (λ r, "- **" +:+ service_name r +:+ "**: "
                   +:+ match error r with Some e => e | None => "None" end
                   +:+ nl)
           (List.filter (λ r, negb (success r)) results)
  end.

(** The deterministic template for two result sequences, spelled out: the
    heading, the two category sections and the static recommendations. *)
Definition deterministic_template
    (plagiarism_results ai_detection_results : list ServiceResult) : string :=
  "## Analysis Summary" +:+ nl +:+ nl
  +:+ "### Plagiarism Check" +:+ nl
  +:+ String.concat ""
        (template_section "No plagiarism checkers were enabled."
           "Check completed" plagiarism_results)
  +:+ nl +:+ "### AI Content Detection" +:+ nl
  +:+ String.concat ""
        (template_section "No AI detectors were enabled."
           "Detection completed" ai_detection_results)
  +:+ nl +:+ "### Recommendations" +:+ nl
  +:+ "Review the detailed results from each service to understand the analysis findings."
  +:+ nl.

(** A summary that is the deterministic template with the one-line note
    about a failure reason. *)
Definition annotated_fallback
    (plagiarism_results ai_detection_results : list ServiceResult)
    (s : string) : Prop :=
  ∃ reason, reason ≠ ""
    ∧ s = _generate_fallback_summary plagiarism_results ai_detection_results
            (Some reason).

(** [s] has [part] somewhere inside, and [s] ends with [part]. *)
Definition contains (s part : string) : Prop :=
  ∃ before after, s = before +:+ part +:+ after.

Definition ends_with (s part : string) : Prop :=
  ∃ before, s = before +:+ part.

(* ===================================================================== *)
(** ** Concrete worlds and configurations used by the examples            *)
(* ===================================================================== *)

(** A world built from its two remote oracles: no environment variable is
    set, the configuration is [config], and non-string values are rejected
    wherever a string is needed. *)
Definition world_of
    (http : list Event → HttpRequest → Outcome (gmap string PyVal))
    (chat : list Event → ChatRequest → Outcome (option string))
    (config : Config) : World :=
  {| http_post := http;
     chat_create := chat;
     getenv := λ _, None;
     load_config := Returned config;
     py_str := λ _, "{}";
     py_slice500 := λ _, Raised (PyException "object is not subscriptable");
     pydantic_str := λ _, Raised (PyException "Input should be a valid string") |}.

Definition empty_config : Config :=
  {| config_services := None; config_openai := None |}.

Definition service_at (name url : string) : ServiceConfig :=
  {| cfg_name := Some name; cfg_api_url := Some url;
     cfg_api_key := Some "k"; cfg_enabled := Some true |}.

Definition svcA : ServiceConfig := service_at "A" "https://a.test/api".
Definition svcB : ServiceConfig := service_at "B" "https://b.test/api".
Definition svcC : ServiceConfig := service_at "C" "https://c.test/api".
Definition svcLLM : ServiceConfig := service_at "Editor" "openai".

(** Two rephrasing services and one plagiarism checker enabled; no
    language-model credential. *)
Definition config_two_rephrasers : Config :=
  {| config_services :=
       Some {[ "rephrasing" := [svcA; svcB]; "plagiarism_checkers" := [svcC] ]};
     config_openai := None |}.

(** Host a answers 503, host b times out, every other host answers with a
    JSON object; the language model answers "Fresh words". *)
Definition http_mixed (log : list Event) (r : HttpRequest)
  : Outcome (gmap string PyVal) :=
  if String.eqb (req_url r) "https://a.test/api"
  then Raised (HTTPStatusError 503 "Server error '503 Service Unavailable'")
  else if String.eqb (req_url r) "https://b.test/api"
  then Raised (TimeoutException "")
  else Returned {[ "rephrased_text" := PStr "Better text" ]}.

Definition chat_fresh (log : list Event) (r : ChatRequest)
  : Outcome (option string) := Returned (Some "Fresh words").

Definition world_mixed : World := world_of http_mixed chat_fresh empty_config.

Definition world_two_rephrasers : World :=
  world_of http_mixed chat_fresh config_two_rephrasers.

(** The first rephrasing service answers 503, the second one answers; one
    plagiarism checker, no AI detector, no language-model credential. *)
Definition config_second_rephraser : Config :=
  {| config_services :=
       Some {[ "rephrasing" := [svcA; svcC]; "plagiarism_checkers" := [svcC] ]};
     config_openai := None |}.

Definition world_second_rephraser : World :=
  world_of http_mixed chat_fresh config_second_rephraser.

(** Every rephrasing service answers with a body that has neither
    [rephrased_text] nor [text]. *)
Definition world_empty_rephrase : World :=
  world_of (λ _ _, Returned {[ "score" := PInt 12 ]}) chat_fresh
    config_two_rephrasers.

(** The key of the language model is configured as the empty string while
    the environment holds one. *)
Definition config_empty_key : Config :=
  {| config_services := None;
     config_openai := Some {[ "api_key" := "" ]} |}.

Definition world_env_key : World :=
  {| http_post := http_mixed;
     chat_create := chat_fresh;
     getenv := λ name, if String.eqb name "OPENAI_API_KEY" then Some "sk-env" else None;
     load_config := Returned config_empty_key;
     py_str := λ _, "{}";
     py_slice500 := λ _, Raised (PyException "object is not subscriptable");
     pydantic_str := λ _, Raised (PyException "Input should be a valid string") |}.

(** The configuration file is missing. *)
Definition world_no_config : World :=
  {| http_post := http_mixed;
     chat_create := chat_fresh;
     getenv := λ _, None;
     load_config :=
       Raised (FileNotFoundError
                 "Configuration file not found: config/services.yaml");
     py_str := λ _, "{}";
     py_slice500 := λ _, Raised (PyException "object is not subscriptable");
     pydantic_str := λ _, Raised (PyException "Input should be a valid string") |}.

(** Only config/services.yaml exists; it holds one setting and no
    placeholder. *)
Definition fs_default_only : FileSystem :=
  {| path_exists := λ path, String.eqb path "config/services.yaml";
     yaml_safe_load := λ _, Returned (PDict {[ "model" := PStr "gpt-4" ]}) |}.

(** A document of four pages, the second and third without text; anything
    that is not this document fails to open. *)
Definition sample_pdf : list Byte.byte := [Byte.x25; Byte.x50; Byte.x44; Byte.x46].

Definition pdf_four_pages : PdfLibrary :=
  {| pdfplumber_open := λ content,
       match content with
       | [Byte.x25; Byte.x50; Byte.x44; Byte.x46] =>
           Returned [ Returned (Some "Page one"); Returned None;
                      Returned (Some ""); Returned (Some "Page four") ]
       | _ => Raised (PyException "No /Root object! - Is this really a PDF?")
       end |}.

Definition upload_report : UploadFile :=
  {| upload_filename := Some "Report.PDF"; upload_read := ReadContent sample_pdf |}.

Definition upload_notes : UploadFile :=
  {| upload_filename := Some "notes.docx"; upload_read := ReadContent sample_pdf |}.

(** Every HTTP call and every completion call fails with an exception whose
    message is empty (as [str(Exception())] is). *)
Definition world_silent : World :=
  world_of (λ _ _, Raised (PyException "")) (λ _ _, Raised (PyException "")) empty_config.

(** Every HTTP call fails with a connection error that has a message. *)
Definition world_down : World :=
  world_of (λ _ _, Raised (PyException "All connection attempts failed"))
           (λ _ _, Raised (PyException "Connection error."))
           empty_config.

(** The language model answers with no content. *)
Definition world_mute : World :=
  world_of http_mixed (λ _ _, Returned None) empty_config.

(** The model answers; the body of every HTTP answer has only unrelated
    keys. *)
Definition world_plain : World :=
  world_of (λ _ _, Returned {[ "score" := PInt 12 ]}) chat_fresh empty_config.

(* ===================================================================== *)
(** ** Properties                                                         *)
(* ===================================================================== *)

Lemma bind_ret_l {A B} (a : A) (f : A → M B) log :
  (mret a ≫= f) log = f a log.
Proof. reflexivity. Qed.

Lemma bind_assoc {A B C} (m : M A) (f : A → M B) (g : B → M C) log :
  ((m ≫= f) ≫= g) log = (m ≫= (λ a, f a ≫= g)) log.
Proof. unfold mbind, M_bind. destruct (m log) as [[a|e] log']; reflexivity. Qed.

Lemma str_truthy_true s : str_truthy s = true ↔ s ≠ "".
Proof.
  unfold str_truthy. rewrite negb_true_iff. split.
  - intros H ->. discriminate.
  - intros H. apply String.eqb_neq. exact H.
Qed.

Ltac run_call :=
  unfold try_except, post, create, lift_outcome, raise,
         mbind, M_bind, mret, M_ret; simpl.

Section Dispatcher.

Variable W : World.

(** One dispatch call: it returns, makes exactly one outbound call, and the
    result is decided by what that call met. *)
Lemma check_plagiarism_run text service log :
  ∃ r, check_plagiarism W text service log
         = (Returned r, log ++ [HttpPost (dispatch_request text service)])
     ∧ service_name r = default "Unknown Service" (cfg_name service)
     ∧ service_type r = "plagiarism"
     ∧ match http_post W log (dispatch_request text service) with
       | Returned d => success r = true ∧ result r = d ∧ error r = None
       | Raised (TimeoutException _) =>
           success r = false ∧ result r = ∅ ∧ error r = Some "Request timed out"
       | Raised (HTTPStatusError status_code _) =>
           success r = false ∧ result r = ∅
           ∧ error r = Some ("HTTP error: " +:+ pretty status_code)
       | Raised e => success r = false ∧ result r = ∅ ∧ error r = Some (exc_str e)
       end.
Proof.
  unfold check_plagiarism, dispatch_request. run_call.
  destruct (http_post W log _) as [d|[]]; eexists; (split; [reflexivity|]);
    simpl; auto.
Qed.

Lemma check_all_loop_run text services : ∀ results log,
  ∃ rs, check_all_loop W text services results log
          = (Returned (results ++ rs),
             log ++ map (λ s, HttpPost (dispatch_request text s)) services)
      ∧ Forall2 (λ s r, service_name r = default "Unknown Service" (cfg_name s))
          services rs.
Proof.
  induction services as [|s rest IH]; intros results log; simpl.
  - exists []. rewrite !app_nil_r. split; [reflexivity | constructor].
  - destruct (check_plagiarism_run text s log) as (r & Hrun & Hname & _).
    unfold mbind, M_bind. rewrite Hrun.
    destruct (IH (results ++ [r]) (log ++ [HttpPost (dispatch_request text s)]))
      as (rs & Hrest & Hall).
    exists (r :: rs). rewrite Hrest, <- !app_assoc. simpl.
    split; [reflexivity | constructor; assumption].
Qed.

(** C1. A category dispatch returns, whatever the individual calls meet,
    exactly one ServiceResult per input service, in the order of the input:
    the result list has the length of the service list and the i-th result
    carries the name of the i-th service.  Dispatching the empty list returns
    the empty list and makes no call. *)
Theorem dispatch_one_result_per_service (text : PyVal)
    (services : list ServiceConfig) (log : list Event) :
  (∃ results log',
      check_all_plagiarism_services W text services log = (Returned results, log')
      ∧ length results = length services
      ∧ ∀ (i : nat) service name,
          services !! i = Some service → cfg_name service = Some name →
          service_name <$> results !! i = Some name)
  ∧ check_all_plagiarism_services W text [] log = (Returned [], log).
Proof.
  split; [|reflexivity].
  unfold check_all_plagiarism_services.
  destruct (check_all_loop_run text services [] log) as (rs & Hrun & Hall).
  simpl in Hrun. exists rs. eexists. split; [exact Hrun|].
  split; [symmetry; eapply Forall2_length; exact Hall|].
  intros i service name Hi Hname.
  destruct (Forall2_lookup_l _ _ _ _ _ Hall Hi) as (r & Hr & Hn).
  rewrite Hr. simpl. rewrite Hn, Hname. reflexivity.
Qed.

(** C3 (amended). No exception escapes a single dispatch call: it always
    returns a ServiceResult, after one outbound call made under a timeout of
    30.  The result is a failure exactly when that call raised, and a failed
    call falls into one of three kinds, each giving [success=false] and an
    empty payload: a timeout, with the error "Request timed out"; a remote
    status error, with the error "HTTP error: " followed by the status code;
    any other exception, with the error [str(e)].  The error text is not
    empty for the first two kinds, and for the third whenever the exception
    has a message. *)
Theorem dispatch_call_classified (text : PyVal) (service : ServiceConfig)
    (log : list Event) :
  ∃ r, check_plagiarism W text service log
         = (Returned r, log ++ [HttpPost (dispatch_request text service)])
     ∧ Qeq_bool (req_timeout (dispatch_request text service)) 30 = true
     ∧ (success r = false ↔
          ∃ e, http_post W log (dispatch_request text service) = Raised e)
     ∧ ∀ e, http_post W log (dispatch_request text service) = Raised e →
         success r = false ∧ result r = ∅ ∧
         match e with
         | TimeoutException _ =>
             error r = Some "Request timed out" ∧ failure_shape r
         | HTTPStatusError status_code _ =>
             error r = Some ("HTTP error: " +:+ pretty status_code) ∧ failure_shape r
         | _ =>
             error r = Some (exc_str e) ∧ (exc_str e ≠ "" → failure_shape r)
         end.
Proof.
  destruct (check_plagiarism_run text service log) as (r & Hrun & _ & _ & Hcase).
  exists r. split; [exact Hrun|]. split; [reflexivity|]. split.
  { destruct (http_post W log _) as [d|e].
    - destruct Hcase as (Hs & _). split; [congruence | intros [e He]; discriminate].
    - split; [eauto|]. intros _. destruct e; tauto. }
  intros e He. rewrite He in Hcase.
  unfold failure_shape.
  destruct e; destruct Hcase as (Hs & Hr & Herr); rewrite Herr;
    (do 3 (split; [auto|])); try (repeat split; auto; fail);
    intros Hne; (do 2 (split; [auto|])); simpl; apply str_truthy_true; exact Hne.
Qed.

End Dispatcher.

Section Rephraser.

Variable W : World.

Lemma rephrase_text_with_openai_run text api_key log :
  ∃ v r, rephrase_text_with_openai W text api_key log
           = (Returned (v, r), log ++ [ChatCreate (rephrase_request text api_key)])
       ∧ service_name r = "OpenAI Rephraser"
       ∧ service_type r = "rephrasing"
       ∧ match chat_create W log (rephrase_request text api_key) with
         | Returned content =>
             success r = true ∧ error r = None
             ∧ result r = {[ "rephrased_text" := v ]}
             ∧ v = PStr (if opt_truthy content then default "" content else "")
         | Raised e =>
             v = PStr "" ∧ success r = false ∧ result r = ∅
             ∧ error r = Some (exc_str e)
         end.
Proof.
  unfold rephrase_text_with_openai. run_call.
  destruct (chat_create W log _) as [content|e]; do 2 eexists;
    (split; [reflexivity|]); simpl; repeat split.
Qed.

Lemma rephrase_text_with_service_run text service log :
  ∃ v r, rephrase_text_with_service W text service log
           = (Returned (v, r), log ++ [call_event W text service]).
Proof.
  unfold rephrase_text_with_service, call_event.
  destruct (String.eqb _ "openai").
  - destruct (rephrase_text_with_openai_run text
                (if str_truthy (default "" (cfg_api_key service))
                 then default "" (cfg_api_key service)
                 else default "" (getenv W "OPENAI_API_KEY")) log)
      as (v & r & Hrun & _).
    exists v, r. exact Hrun.
  - unfold dispatch_request. run_call.
    destruct (http_post W log _) as [d|[]]; do 2 eexists; reflexivity.
Qed.

(** The log after a run of failed attempts holds one call per service, in
    the order of the list. *)
Lemma run_failing_log text services : ∀ log log',
  run_failing W text services log = Some log' →
  log' = log ++ map (call_event W text) services.
Proof.
  induction services as [|s rest IH]; intros log log' H; simpl in H.
  - inversion H. rewrite app_nil_r. reflexivity.
  - destruct (rephrase_text_with_service_run text s log) as (v & r & Hrun).
    rewrite Hrun in H. destruct (success r); [discriminate|].
    rewrite (IH _ _ H), <- app_assoc. reflexivity.
Qed.

(** The loop, once the services in front of the first success have failed. *)
Lemma rephrase_loop_first_success text s post v r log2 :
  ∀ pre last_result log log1,
    run_failing W text pre log = Some log1 →
    rephrase_text_with_service W text s log1 = (Returned (v, r), log2) →
    success r = true →
    rephrase_loop W text (pre ++ s :: post) last_result log
      = (Returned (v, r), log2).
Proof.
  induction pre as [|c pre IH]; intros last_result log log1 Hpre Hs Hok; simpl in *.
  - inversion Hpre; subst log1. unfold mbind, M_bind. rewrite Hs, Hok. reflexivity.
  - unfold mbind, M_bind.
    destruct (rephrase_text_with_service W text c log) as [[[vc rc]|e] logc];
      [|discriminate].
    destruct (success rc); [discriminate|].
    eapply IH; eassumption.
Qed.

(** The loop when every service fails: the result of the last attempt. *)
Lemma rephrase_loop_all_fail text s v r log2 :
  ∀ pre last_result log log1,
    run_failing W text pre log = Some log1 →
    rephrase_text_with_service W text s log1 = (Returned (v, r), log2) →
    success r = false →
    rephrase_loop W text (pre ++ [s]) last_result log
      = (Returned (PStr "", r), log2).
Proof.
  induction pre as [|c pre IH]; intros last_result log log1 Hpre Hs Hko; simpl in *.
  - inversion Hpre; subst log1. unfold mbind, M_bind. rewrite Hs, Hko. reflexivity.
  - unfold mbind, M_bind.
    destruct (rephrase_text_with_service W text c log) as [[[vc rc]|e] logc];
      [|discriminate].
    destruct (success rc); [discriminate|].
    eapply IH; eassumption.
Qed.

Lemma rephrase_with_first_enabled_cons text c rest log :
  rephrase_with_first_enabled W text (c :: rest) log
    = rephrase_loop W text (c :: rest) None log.
Proof. reflexivity. Qed.

(** C2. With at least one service configured, the rephraser attempts the
    services in configuration order, one call each: when the services [pre]
    in front have failed and the next service [s] succeeds, it returns the
    rephrased text and the ServiceResult of [s], and the calls made are
    exactly those of [pre] and [s], in that order: no service of [post] is
    invoked. *)
Theorem fallback_stops_at_first_success (text : PyVal)
    (pre post : list ServiceConfig) (s : ServiceConfig)
    (log log1 log2 : list Event) (v : PyVal) (r : ServiceResult) :
  run_failing W text pre log = Some log1 →
  rephrase_text_with_service W text s log1 = (Returned (v, r), log2) →
  success r = true →
  rephrase_with_first_enabled W text (pre ++ s :: post) log = (Returned (v, r), log2)
  ∧ log2 = log ++ map (call_event W text) (pre ++ [s]).
Proof.
  intros Hpre Hs Hok. split.
  - assert (Hloop := rephrase_loop_first_success text s post v r log2
                       pre None log log1 Hpre Hs Hok).
    destruct pre; exact Hloop.
  - destruct (rephrase_text_with_service_run text s log1) as (v' & r' & Hrun).
    rewrite Hrun in Hs. inversion Hs.
    rewrite (run_failing_log _ _ _ _ Hpre), map_app, app_assoc. reflexivity.
Qed.

(** C4. When every service of a non-empty list fails, the rephraser returns
    the empty string together with the ServiceResult of the last service
    attempted; the results of the earlier attempts are not part of what it
    returns. *)
Theorem fallback_all_fail_returns_last (text : PyVal)
    (pre : list ServiceConfig) (s : ServiceConfig)
    (log log1 log2 : list Event) (v : PyVal) (r : ServiceResult) :
  run_failing W text pre log = Some log1 →
  rephrase_text_with_service W text s log1 = (Returned (v, r), log2) →
  success r = false →
  rephrase_with_first_enabled W text (pre ++ [s]) log = (Returned (PStr "", r), log2).
Proof.
  intros Hpre Hs Hko.
  assert (Hloop := rephrase_loop_all_fail text s v r log2
                     pre None log log1 Hpre Hs Hko).
  destruct pre; exact Hloop.
Qed.

(** C9. A remote rephrasing call that succeeds is reported as a success
    with the response body as payload, and the rephrased text is the value
    under the key [rephrased_text] when the body has that key, else the value
    under [text] when it has that one, else the empty string: a body with
    neither key gives a successful result with empty output. *)
Theorem remote_rephrase_extraction (text : PyVal) (service : ServiceConfig)
    (log : list Event) (d : gmap string PyVal) :
  default "" (cfg_api_url service) ≠ "openai" →
  http_post W log (dispatch_request text service) = Returned d →
  ∃ v r, rephrase_text_with_service W text service log
           = (Returned (v, r), log ++ [HttpPost (dispatch_request text service)])
       ∧ success r = true ∧ result r = d ∧ error r = None
       ∧ v = match d !! "rephrased_text" with
             | Some x => x
             | None => match d !! "text" with
                       | Some y => y
                       | None => PStr ""
                       end
             end.
Proof.
  intros Hurl Hpost. apply String.eqb_neq in Hurl.
  unfold rephrase_text_with_service. rewrite Hurl.
  unfold dispatch_request in Hpost. run_call. rewrite Hpost.
  do 2 eexists. split; [reflexivity|]. simpl. do 3 (split; [reflexivity|]).
  unfold extract_rephrased.
  destruct (d !! "rephrased_text"); [reflexivity|].
  destruct (d !! "text"); reflexivity.
Qed.

(** C10. A service whose endpoint is the sentinel "openai" is answered by
    the language model: when that call succeeds, the ServiceResult has the
    service name "OpenAI Rephraser" whatever name the service is configured
    with, and its payload maps "rephrased_text" to the very string returned
    as rephrased text. *)
Theorem openai_route_result (text : PyVal) (service : ServiceConfig)
    (log log' : list Event) (v : PyVal) (r : ServiceResult) :
  cfg_api_url service = Some "openai" →
  rephrase_text_with_service W text service log = (Returned (v, r), log') →
  success r = true →
  service_name r = "OpenAI Rephraser"
  ∧ result r = {[ "rephrased_text" := v ]}
  ∧ result r !! "rephrased_text" = Some v
  ∧ ∃ rephrased : string, v = PStr rephrased.
Proof.
  intros Hurl Hrun Hok. unfold rephrase_text_with_service in Hrun.
  rewrite Hurl in Hrun. simpl in Hrun.
  match type of Hrun with
  | rephrase_text_with_openai _ _ ?k _ = _ =>
      destruct (rephrase_text_with_openai_run text k log)
        as (v' & r' & Hrun' & Hname & _ & Hcase)
  end.
  rewrite Hrun' in Hrun. inversion Hrun; subst v' r' log'.
  destruct (chat_create W log _) as [content|e].
  - destruct Hcase as (_ & _ & Hres & Hv).
    split; [exact Hname|]. split; [exact Hres|].
    split; [rewrite Hres; apply lookup_singleton_eq|].
    eexists. exact Hv.
  - destruct Hcase as (_ & Hko & _). congruence.
Qed.

End Rephraser.

Section Summarizer.

Lemma append_nil_r (s : string) : s +:+ "" = s.
Proof.
  induction s as [|c s IH]; [reflexivity|].
  change (String c (s +:+ "") = String c s). rewrite IH. reflexivity.
Qed.

Lemma append_assoc (s1 s2 s3 : string) : (s1 +:+ s2) +:+ s3 = s1 +:+ (s2 +:+ s3).
Proof.
  induction s1 as [|c s1 IH]; [reflexivity|].
  change (String c ((s1 +:+ s2) +:+ s3) = String c (s1 +:+ (s2 +:+ s3))).
  rewrite IH. reflexivity.
Qed.

Lemma concat_cons (x : string) (l : list string) :
  String.concat "" (x :: l) = x +:+ String.concat "" l.
Proof.
  destruct l as [|y l]; [|reflexivity].
  change (x = x +:+ ""). rewrite append_nil_r. reflexivity.
Qed.

Lemma concat_app (l1 l2 : list string) :
  String.concat "" (l1 ++ l2) = String.concat "" l1 +:+ String.concat "" l2.
Proof.
  induction l1 as [|x l1 IH]; [reflexivity|].
  rewrite <- app_comm_cons, !concat_cons, IH, append_assoc. reflexivity.
Qed.

Lemma concat_singleton (x : string) : String.concat "" [x] = x.
Proof. reflexivity. Qed.

Ltac flatten_concat :=
  repeat (rewrite concat_cons || rewrite concat_app);
  rewrite ?append_assoc, ?append_nil_r.

(** The shape of the deterministic summary: heading, optional note, the two
    category sections, the recommendations. *)
Lemma fallback_summary_shape plagiarism_results ai_detection_results error :
  _generate_fallback_summary plagiarism_results ai_detection_results error
    = ("## Analysis Summary" +:+ nl +:+ nl)
      +:+ (if opt_truthy error
           then "*Note: AI summary generation encountered an issue: "
                +:+ format_error error +:+ "*" +:+ nl +:+ nl
           else "")
      +:+ ("### Plagiarism Check" +:+ nl)
      +:+ section_text "No plagiarism checkers were enabled." "Check completed"
            plagiarism_results
      +:+ (nl +:+ "### AI Content Detection" +:+ nl)
      +:+ section_text "No AI detectors were enabled." "Detection completed"
            ai_detection_results
      +:+ (nl +:+ "### Recommendations" +:+ nl)
      +:+ ("Review the detailed results from each service to understand the analysis findings." +:+ nl).
Proof.
  unfold _generate_fallback_summary, section_text. cbv zeta.
  destruct (opt_truthy error);
    destruct plagiarism_results as [|r0 rs0];
    destruct ai_detection_results as [|r1 rs1];
    cbv iota; flatten_concat; reflexivity.
Qed.

Variable W : World.

(** C5. With an empty credential the summary generator makes no call to the
    language model (the log is unchanged) and returns exactly the
    deterministic template for the two result sequences: the heading, then
    per category one line for each successful service followed by one line
    with its error for each failed service, then the recommendations.  The
    text does not depend on the world, the log, the analysed text or the
    model name, so repeated calls give identical output.  An empty category
    is rendered as its "none enabled" line under the category heading, and
    the output ends with the static recommendations section. *)
Theorem summary_without_credential (text : PyVal)
    (plagiarism_results ai_detection_results : list ServiceResult)
    (model : string) (log : list Event) :
  generate_summary W text plagiarism_results ai_detection_results "" model log
    = (Returned (_generate_fallback_summary plagiarism_results ai_detection_results None),
       log)
  ∧ generate_summary W text plagiarism_results ai_detection_results "" model log
    = (Returned (deterministic_template plagiarism_results ai_detection_results),
       log)
  ∧ (∀ W' text' model' log',
       (generate_summary W' text' plagiarism_results ai_detection_results "" model' log').1
       = (generate_summary W text plagiarism_results ai_detection_results "" model log).1)
  ∧ contains (_generate_fallback_summary [] ai_detection_results None)
      ("### Plagiarism Check" +:+ nl +:+ "No plagiarism checkers were enabled." +:+ nl)
  ∧ contains (_generate_fallback_summary plagiarism_results [] None)
      ("### AI Content Detection" +:+ nl +:+ "No AI detectors were enabled." +:+ nl)
  ∧ ends_with (_generate_fallback_summary plagiarism_results ai_detection_results None)
      (nl +:+ "### Recommendations" +:+ nl
       +:+ "Review the detailed results from each service to understand the analysis findings."
       +:+ nl).
Proof.
  split; [reflexivity|].
  split.
  { change (generate_summary W text plagiarism_results ai_detection_results
              "" model log)
      with (@Returned string
              (_generate_fallback_summary plagiarism_results
                 ai_detection_results None), log).
    rewrite fallback_summary_shape.
    unfold deterministic_template, section_text, template_section.
    simpl opt_truthy. cbv iota.
    rewrite !append_assoc. reflexivity. }
  split; [reflexivity|].
  split; [|split].
  - rewrite fallback_summary_shape. unfold section_text at 1.
    rewrite concat_singleton.
    eexists ("## Analysis Summary" +:+ nl +:+ nl), _.
    simpl opt_truthy. cbv iota.
    rewrite !append_assoc. reflexivity.
  - rewrite fallback_summary_shape. unfold section_text at 2.
    rewrite concat_singleton.
    eexists (("## Analysis Summary" +:+ nl +:+ nl) +:+ ("### Plagiarism Check" +:+ nl)
             +:+ section_text "No plagiarism checkers were enabled." "Check completed"
                   plagiarism_results +:+ nl), _.
    simpl opt_truthy. cbv iota.
    rewrite !append_assoc. reflexivity.
  - rewrite fallback_summary_shape.
    eexists. rewrite <- !append_assoc. reflexivity.
Qed.

Lemma fallback_note_present plagiarism_results ai_detection_results reason :
  reason ≠ "" →
  contains (_generate_fallback_summary plagiarism_results ai_detection_results
              (Some reason))
    ("*Note: AI summary generation encountered an issue: " +:+ reason +:+ "*" +:+ nl).
Proof.
  intros Hne. rewrite fallback_summary_shape.
  apply str_truthy_true in Hne. simpl opt_truthy. rewrite Hne.
  eexists ("## Analysis Summary" +:+ nl +:+ nl), _.
  unfold format_error. simpl default.
  rewrite !append_assoc. reflexivity.
Qed.

(** C6 (amended). With a credential, the summary generator never raises:
    it always returns a summary.  When preparing the context or the
    completion call raises, the summary is the deterministic template for
    the failure text [str(e)]: it carries the one-line note with that text
    whenever the text is not empty, and is the plain template otherwise.
    When the completion has no content (an empty response), the summary is
    the plain deterministic template, without a note.  Otherwise it is the
    content of the completion. *)
Theorem summary_failure_falls_back (text : PyVal)
    (plagiarism_results ai_detection_results : list ServiceResult)
    (key model : string) (log : list Event) :
  key ≠ "" →
  ∃ s log',
    generate_summary W text plagiarism_results ai_detection_results key model log
      = (Returned s, log')
    ∧ match llm_outcome W text plagiarism_results ai_detection_results key model log with
      | Raised e =>
          s = _generate_fallback_summary plagiarism_results ai_detection_results
                (Some (exc_str e))
          ∧ (exc_str e ≠ "" →
               contains s ("*Note: AI summary generation encountered an issue: "
                           +:+ exc_str e +:+ "*" +:+ nl))
          ∧ (exc_str e = "" →
               s = _generate_fallback_summary plagiarism_results ai_detection_results None)
      | Returned content =>
          if opt_truthy content then content = Some s
          else s = _generate_fallback_summary plagiarism_results ai_detection_results None
      end.
Proof.
  intros Hkey. apply str_truthy_true in Hkey.
  unfold generate_summary, llm_outcome. rewrite Hkey. run_call.
  destruct (_prepare_results_context W text plagiarism_results ai_detection_results)
    as [context|e].
  - destruct (chat_create W log _) as [content|e].
    + do 2 eexists. split; [reflexivity|].
      destruct content as [c|]; simpl; [|reflexivity].
      destruct (str_truthy c); reflexivity.
    + do 2 eexists. split; [reflexivity|].
      split; [reflexivity|]. split.
      * apply fallback_note_present.
      * intros ->. reflexivity.
  - do 2 eexists. split; [reflexivity|].
    split; [reflexivity|]. split.
    + apply fallback_note_present.
    + intros ->. reflexivity.
Qed.

End Summarizer.

Section Invariant.

Variable W : World.

#[local] Abbreviation well_formed := (well_formed W).

Lemma well_formed_success name type d :
  well_formed (mkServiceResult name type true d None).
Proof. repeat split; simpl; intros; discriminate. Qed.

Lemma well_formed_failure name type msg :
  (messages_nonempty W → msg ≠ "") →
  well_formed (mkServiceResult name type false ∅ (Some msg)).
Proof.
  intros Hmsg. repeat split; simpl; try (intros; discriminate); eauto.
  apply str_truthy_true. auto.
Qed.

Lemma http_error_nonempty (status_code : Z) : "HTTP error: " +:+ pretty status_code ≠ "".
Proof. discriminate. Qed.

Lemma check_plagiarism_well_formed text service log r log' :
  check_plagiarism W text service log = (Returned r, log') → well_formed r.
Proof.
  unfold check_plagiarism. run_call.
  destruct (http_post W log _) as [d|e] eqn:Hpost.
  - intros [= <- _]. apply well_formed_success.
  - destruct e; intros [= <- _]; apply well_formed_failure;
      try (intros _; discriminate);
      intros [Hhttp _]; exact (Hhttp _ _ _ Hpost).
Qed.

Lemma openai_well_formed text api_key log v r log' :
  rephrase_text_with_openai W text api_key log = (Returned (v, r), log') →
  well_formed r.
Proof.
  unfold rephrase_text_with_openai. run_call.
  destruct (chat_create W log _) as [content|e] eqn:Hchat.
  - intros [= _ <- _]. apply well_formed_success.
  - intros [= _ <- _]. apply well_formed_failure.
    intros [_ Hllm]. exact (Hllm _ _ _ Hchat).
Qed.

Lemma service_well_formed text service log v r log' :
  rephrase_text_with_service W text service log = (Returned (v, r), log') →
  well_formed r.
Proof.
  unfold rephrase_text_with_service.
  destruct (String.eqb _ "openai"); [apply openai_well_formed|].
  run_call.
  destruct (http_post W log _) as [d|e] eqn:Hpost.
  - intros [= _ <- _]. apply well_formed_success.
  - destruct e; intros [= _ <- _]; apply well_formed_failure;
      try (intros _; discriminate);
      intros [Hhttp _]; exact (Hhttp _ _ _ Hpost).
Qed.

Lemma check_all_loop_well_formed text services : ∀ acc log results log',
  Forall well_formed acc →
  check_all_loop W text services acc log = (Returned results, log') →
  Forall well_formed results.
Proof.
  induction services as [|s rest IH]; intros acc log results log' Hacc; simpl.
  - intros [= <- _]. exact Hacc.
  - unfold mbind, M_bind.
    destruct (check_plagiarism W text s log) as [[r|e] log1] eqn:Hrun;
      [|discriminate].
    apply IH. apply Forall_app. split; [exact Hacc|].
    constructor; [|constructor].
    eapply check_plagiarism_well_formed; exact Hrun.
Qed.

Lemma rephrase_loop_well_formed text services : ∀ last_result log v r log',
  (∀ r0, last_result = Some r0 → well_formed r0) →
  rephrase_loop W text services last_result log = (Returned (v, r), log') →
  well_formed r.
Proof.
  induction services as [|s rest IH]; intros last_result log v r log' Hlast; simpl.
  - destruct last_result as [r0|].
    + intros [= _ <- _]. apply Hlast. reflexivity.
    + intros [= _ <- _]. apply well_formed_failure. intros _; discriminate.
  - unfold mbind, M_bind.
    destruct (rephrase_text_with_service W text s log) as [[[vs rs]|e] log1] eqn:Hrun;
      [|discriminate].
    assert (Hrs := service_well_formed _ _ _ _ _ _ Hrun).
    destruct (success rs).
    + intros [= _ <- _]. exact Hrs.
    + apply IH. intros r0 [= <-]. exact Hrs.
Qed.

Lemma first_enabled_well_formed text services log v r log' :
  rephrase_with_first_enabled W text services log = (Returned (v, r), log') →
  well_formed r.
Proof.
  destruct services as [|s rest].
  - intros [= _ <- _]. apply well_formed_failure. intros _; discriminate.
  - rewrite rephrase_with_first_enabled_cons.
    apply rephrase_loop_well_formed. intros r0 [=].
Qed.

(** C7 (amended). Every ServiceResult produced by the dispatcher, the
    rephraser or their helpers has: [success=true] implies that no error is
    set; [success=false] implies that the payload is empty and an error text
    is set.  That text is not empty provided no exception caught by a generic
    handler has an empty message: under that condition the invariant of the
    data model holds. *)
Theorem produced_results_invariant (r : ServiceResult) :
  produced W r →
  result_invariant_set r ∧ (messages_nonempty W → result_invariant r).
Proof.
  intros [text service log log' H | text services log log' results H Hin
         | text api_key log log' v H | text service log log' v H
         | text services log log' v H].
  - eapply check_plagiarism_well_formed; exact H.
  - unfold check_all_plagiarism_services in H.
    assert (Hall := check_all_loop_well_formed _ _ _ _ _ _ (Forall_nil_2 _) H).
    rewrite Forall_forall in Hall. apply Hall, Hin.
  - eapply openai_well_formed; exact H.
  - eapply service_well_formed; exact H.
  - eapply first_enabled_well_formed; exact H.
Qed.

End Invariant.

Section Flow.

Variable W : World.

(** The calls the rephraser makes are attempts on a prefix of its service
    list, one call each. *)
Lemma rephrase_loop_log text services : ∀ last_result log v r log',
  rephrase_loop W text services last_result log = (Returned (v, r), log') →
  ∃ n : nat, log' = log ++ map (call_event W text) (take n services).
Proof.
  induction services as [|s rest IH]; intros last_result log v r log'; simpl.
  - destruct last_result; intros [= _ _ <-]; exists 0%nat;
      rewrite app_nil_r; reflexivity.
  - unfold mbind, M_bind.
    destruct (rephrase_text_with_service_run W text s log) as (vs & rs & Hrun).
    rewrite Hrun. destruct (success rs).
    + intros [= _ _ <-]. exists 1%nat. reflexivity.
    + intros Hrest. destruct (IH _ _ _ _ _ Hrest) as (n & ->).
      exists (S n). rewrite <- app_assoc. reflexivity.
Qed.

Lemma rephrase_with_first_enabled_log text services log v r log' :
  rephrase_with_first_enabled W text services log = (Returned (v, r), log') →
  ∃ n : nat, log' = log ++ map (call_event W text) (take n services).
Proof.
  destruct services as [|s rest].
  - intros [= _ _ <-]. exists 0%nat. rewrite app_nil_r. reflexivity.
  - rewrite rephrase_with_first_enabled_cons. apply rephrase_loop_log.
Qed.

(** C8 (amended). In the rephrase flow, for a text that passes validation
    and a configuration that loads: when the rephraser's result is a failure
    the flow aborts with an HTTP 500 error whose detail is "Rephrasing
    failed: " followed by the error of that result, verbatim; the calls made
    up to the abort are the rephraser's own attempts and nothing more, so no
    plagiarism or AI-detection dispatch runs.  With no enabled rephrasing
    service the rephraser makes no call and returns the empty string with a
    failure result whose error is "No rephrasing services enabled", and the
    flow aborts with the detail "Rephrasing failed: No rephrasing services
    enabled". *)
Theorem rephrase_flow_aborts_on_failure (text : string) (config : Config)
    (log : list Event) :
  str_truthy text = true →
  strip_is_empty text = false →
  load_config W = Returned config →
  (∀ v r log',
     rephrase_with_first_enabled W (PStr text)
       (get_enabled_services config "rephrasing") log = (Returned (v, r), log') →
     success r = false →
     rephrase_text W text log
       = (Raised (HTTPException 500
                    ("Rephrasing failed: " +:+ format_error (error r))), log')
     ∧ ∃ n : nat,
         log' = log ++ map (call_event W (PStr text))
                         (take n (get_enabled_services config "rephrasing")))
  ∧ (get_enabled_services config "rephrasing" = [] →
     rephrase_with_first_enabled W (PStr text)
       (get_enabled_services config "rephrasing") log
       = (Returned (PStr "",
                    mkServiceResult "None" "rephrasing" false ∅
                      (Some "No rephrasing services enabled")), log)
     ∧ rephrase_text W text log
       = (Raised (HTTPException 500
                    "Rephrasing failed: No rephrasing services enabled"), log)).
Proof.
  intros Htext Hstrip Hload.
  assert (Hflow : ∀ v r log',
    rephrase_with_first_enabled W (PStr text)
      (get_enabled_services config "rephrasing") log = (Returned (v, r), log') →
    success r = false →
    rephrase_text W text log
      = (Raised (HTTPException 500
                   ("Rephrasing failed: " +:+ format_error (error r))), log')).
  { intros v r log' Hrun Hko. unfold rephrase_text.
    rewrite Htext, Hstrip. cbn [negb orb].
    unfold mbind, M_bind, try_except, lift_outcome.
    rewrite Hload, Hrun, Hko. reflexivity. }
  split.
  - intros v r log' Hrun Hko. split; [exact (Hflow _ _ _ Hrun Hko)|].
    eapply rephrase_with_first_enabled_log; exact Hrun.
  - intros Hnone. rewrite Hnone in *. split; [reflexivity|].
    exact (Hflow _ _ _ eq_refl eq_refl).
Qed.

End Flow.

(* ===================================================================== *)
(** ** The properties at concrete inputs                                  *)
(* ===================================================================== *)

(** Three services, the first answering 503 and the second timing out:
    three results, the second named after the second service. *)
Lemma dispatch_one_result_per_service_witness :
  ∃ results log',
    check_all_plagiarism_services world_mixed (PStr "Hello world")
      [svcA; svcB; svcC] [] = (Returned results, log')
    ∧ length results = 3%nat
    ∧ service_name <$> results !! 1%nat = Some "B".
Proof.
  destruct (dispatch_one_result_per_service world_mixed (PStr "Hello world")
              [svcA; svcB; svcC] [])
    as [(results & log' & Hrun & Hlen & Hnames) _].
  exists results, log'. split; [exact Hrun|]. split; [exact Hlen|].
  apply (Hnames 1%nat svcB "B"); reflexivity.
Defined.

(** A and B fail, C succeeds, the language-model service after C is never
    called. *)
Lemma fallback_stops_at_first_success_witness :
  rephrase_with_first_enabled world_mixed (PStr "Hello world")
    ([svcA; svcB] ++ svcC :: [svcLLM]) []
    = (Returned (PStr "Better text",
                 mkServiceResult "C" "rephrasing" true
                   {[ "rephrased_text" := PStr "Better text" ]} None),
       [ HttpPost (dispatch_request (PStr "Hello world") svcA);
         HttpPost (dispatch_request (PStr "Hello world") svcB);
         HttpPost (dispatch_request (PStr "Hello world") svcC) ])
  ∧ [ HttpPost (dispatch_request (PStr "Hello world") svcA);
      HttpPost (dispatch_request (PStr "Hello world") svcB);
      HttpPost (dispatch_request (PStr "Hello world") svcC) ]
    = [] ++ map (call_event world_mixed (PStr "Hello world")) ([svcA; svcB] ++ [svcC]).
Proof.
  apply (fallback_stops_at_first_success world_mixed (PStr "Hello world")
           [svcA; svcB] [svcLLM] svcC []
           [ HttpPost (dispatch_request (PStr "Hello world") svcA);
             HttpPost (dispatch_request (PStr "Hello world") svcB) ]);
    reflexivity.
Defined.

(** A answers 503 and B times out: the empty string with B's failure. *)
Lemma fallback_all_fail_returns_last_witness :
  rephrase_with_first_enabled world_mixed (PStr "Hello world") ([svcA] ++ [svcB]) []
    = (Returned (PStr "",
                 mkServiceResult "B" "rephrasing" false ∅ (Some "Request timed out")),
       [ HttpPost (dispatch_request (PStr "Hello world") svcA);
         HttpPost (dispatch_request (PStr "Hello world") svcB) ]).
Proof.
  apply (fallback_all_fail_returns_last world_mixed (PStr "Hello world")
           [svcA] svcB []
           [ HttpPost (dispatch_request (PStr "Hello world") svcA) ]
           _ (PStr ""));
    reflexivity.
Defined.

(** A body with neither key: a success with empty output. *)
Lemma remote_rephrase_extraction_witness :
  ∃ v r,
    rephrase_text_with_service world_plain (PStr "Hello world") svcA []
      = (Returned (v, r), [] ++ [HttpPost (dispatch_request (PStr "Hello world") svcA)])
    ∧ success r = true ∧ v = PStr "".
Proof.
  destruct (remote_rephrase_extraction world_plain (PStr "Hello world") svcA []
              {[ "score" := PInt 12 ]})
    as (v & r & Hrun & Hok & _ & _ & Hv).
  - apply String.eqb_neq. reflexivity.
  - reflexivity.
  - exists v, r. split; [exact Hrun|]. split; [exact Hok|].
    rewrite Hv. reflexivity.
Defined.

(** The service configured as "Editor" with the sentinel endpoint. *)
Lemma openai_route_result_witness :
  service_name (mkServiceResult "OpenAI Rephraser" "rephrasing" true
                  {[ "rephrased_text" := PStr "Fresh words" ]} None)
    = "OpenAI Rephraser"
  ∧ cfg_name svcLLM = Some "Editor".
Proof.
  split; [|reflexivity].
  apply (openai_route_result world_mixed (PStr "Hello world") svcLLM []
           [ChatCreate (rephrase_request (PStr "Hello world") "k")]
           (PStr "Fresh words")
           (mkServiceResult "OpenAI Rephraser" "rephrasing" true
              {[ "rephrased_text" := PStr "Fresh words" ]} None));
    reflexivity.
Defined.

(** Service B times out. *)
Lemma dispatch_call_classified_witness :
  ∃ r, check_plagiarism world_mixed (PStr "Hello world") svcB []
         = (Returned r, [] ++ [HttpPost (dispatch_request (PStr "Hello world") svcB)])
     ∧ success r = false ∧ result r = ∅ ∧ error r = Some "Request timed out".
Proof.
  destruct (dispatch_call_classified world_mixed (PStr "Hello world") svcB [])
    as (r & Hrun & Hfail).
  exists r. split; [exact Hrun|].
  destruct Hfail as (_ & _ & Hfail).
  destruct (Hfail (TimeoutException "") eq_refl) as (Hs & Hr & Herr & _).
  split; [exact Hs|]. split; [exact Hr | exact Herr].
Defined.

(** The completion call fails with "Connection error.". *)
Lemma summary_failure_falls_back_witness :
  ∃ s log',
    generate_summary world_down (PStr "Hello world") [] [] "sk-test" "gpt-4" []
      = (Returned s, log')
    ∧ s = _generate_fallback_summary [] [] (Some "Connection error.").
Proof.
  destruct (summary_failure_falls_back world_down (PStr "Hello world") [] []
              "sk-test" "gpt-4" [])
    as (s & log' & Hrun & Hcase).
  - discriminate.
  - exists s, log'. split; [exact Hrun|].
    assert (Hllm : llm_outcome world_down (PStr "Hello world") [] []
                     "sk-test" "gpt-4" []
                   = Raised (PyException "Connection error.")) by reflexivity.
    rewrite Hllm in Hcase. exact (proj1 Hcase).
Defined.

Lemma world_mixed_messages : messages_nonempty world_mixed.
Proof.
  split.
  - intros log r e. simpl. unfold http_mixed.
    destruct (String.eqb (req_url r) "https://a.test/api"); [intros [= <-]; exact I|].
    destruct (String.eqb (req_url r) "https://b.test/api"); [intros [= <-]; exact I|].
    discriminate.
  - intros log r e. simpl. unfold chat_fresh. discriminate.
Qed.

(** The result of a dispatch call answered with 503. *)
Lemma produced_results_invariant_witness :
  result_invariant
    (mkServiceResult "A" "plagiarism" false ∅ (Some "HTTP error: 503")).
Proof.
  apply (produced_results_invariant world_mixed).
  - apply (produced_check_plagiarism world_mixed _ (PStr "Hello world") svcA []
             [HttpPost (dispatch_request (PStr "Hello world") svcA)]).
    reflexivity.
  - exact world_mixed_messages.
Defined.

(** Both enabled rephrasing services fail: the flow stops with the last
    failure and the log holds the two rephrasing attempts only.  With no
    rephrasing service at all, it stops before any call. *)
Lemma rephrase_flow_aborts_on_failure_witness :
  rephrase_text world_two_rephrasers "Hello world" []
    = (Raised (HTTPException 500 "Rephrasing failed: Request timed out"),
       [ HttpPost (dispatch_request (PStr "Hello world") svcA);
         HttpPost (dispatch_request (PStr "Hello world") svcB) ])
  ∧ rephrase_text world_mixed "Hello world" []
    = (Raised (HTTPException 500
                 "Rephrasing failed: No rephrasing services enabled"), []).
Proof.
  split.
  - apply (proj1 (rephrase_flow_aborts_on_failure world_two_rephrasers
                    "Hello world" config_two_rephrasers [] eq_refl eq_refl eq_refl)
             (PStr "")
             (mkServiceResult "B" "rephrasing" false ∅ (Some "Request timed out")));
      reflexivity.
  - apply (proj2 (rephrase_flow_aborts_on_failure world_mixed
                    "Hello world" empty_config [] eq_refl eq_refl eq_refl)).
    reflexivity.
Defined.

(** The deterministic summary when nothing is enabled. *)
Example fallback_summary_nothing_enabled :
  _generate_fallback_summary [] [] None
    = "## Analysis Summary" +:+ nl +:+ nl
      +:+ "### Plagiarism Check" +:+ nl
      +:+ "No plagiarism checkers were enabled." +:+ nl
      +:+ nl +:+ "### AI Content Detection" +:+ nl
      +:+ "No AI detectors were enabled." +:+ nl
      +:+ nl +:+ "### Recommendations" +:+ nl
      +:+ "Review the detailed results from each service to understand the analysis findings."
      +:+ nl.
Proof. reflexivity. Qed.

(** The deterministic summary lists the successes of a category before its
    failures, whatever their order in the sequence. *)
Example fallback_summary_successes_first :
  _generate_fallback_summary
    [ mkServiceResult "A" "plagiarism" false ∅ (Some "HTTP error: 503");
      mkServiceResult "C" "plagiarism" true {[ "score" := PInt 12 ]} None ]
    [] (Some "Connection error.")
    = "## Analysis Summary" +:+ nl +:+ nl
      +:+ "*Note: AI summary generation encountered an issue: Connection error.*"
      +:+ nl +:+ nl
      +:+ "### Plagiarism Check" +:+ nl
      +:+ "- **C**: Check completed" +:+ nl
      +:+ "- **A**: HTTP error: 503" +:+ nl
      +:+ nl +:+ "### AI Content Detection" +:+ nl
      +:+ "No AI detectors were enabled." +:+ nl
      +:+ nl +:+ "### Recommendations" +:+ nl
      +:+ "Review the detailed results from each service to understand the analysis findings."
      +:+ nl.
Proof. reflexivity. Qed.

(** The rephrase flow when the second rephrasing service answers: the
    checks run on the rephrased text and both texts are in the response. *)
Example rephrase_flow_succeeds :
  rephrase_text world_second_rephraser "Hello world" []
    = (Returned
         {| summary :=
              _generate_fallback_summary
                [ mkServiceResult "C" "plagiarism" true
                    {[ "rephrased_text" := PStr "Better text" ]} None ] [] None;
            rephrased_text := "Better text";
            plagiarism_results :=
              [ mkServiceResult "C" "plagiarism" true
                  {[ "rephrased_text" := PStr "Better text" ]} None ];
            ai_detection_results := [];
            original_text := "Hello world" |},
       [ HttpPost (dispatch_request (PStr "Hello world") svcA);
         HttpPost (dispatch_request (PStr "Hello world") svcC);
         HttpPost (dispatch_request (PStr "Better text") svcC) ]).
Proof. reflexivity. Qed.

(** A text made of white space only is rejected before any call. *)
Example rephrase_flow_blank_text :
  rephrase_text world_second_rephraser ("  " +:+ nl) []
    = (Raised (HTTPException 400 "No text provided for rephrasing."), []).
Proof. reflexivity. Qed.

(* ===================================================================== *)
(** ** Where the code departs from the specification                      *)
(* ===================================================================== *)

(** C3. A connection error whose message is empty: the dispatch call gives
    a failure whose error text is empty. *)
Lemma dispatch_empty_error_counterexample :
  http_post world_silent [] (dispatch_request (PStr "Hello world") svcA)
    = Raised (PyException "")
  ∧ check_plagiarism world_silent (PStr "Hello world") svcA []
    = (Returned (mkServiceResult "A" "plagiarism" false ∅ (Some "")),
       [HttpPost (dispatch_request (PStr "Hello world") svcA)])
  ∧ ¬ failure_shape (mkServiceResult "A" "plagiarism" false ∅ (Some "")).
Proof.
  split; [reflexivity|]. split; [reflexivity|].
  intros (_ & _ & H). discriminate H.
Qed.

(** C6. The language model answers with no content: the summary is the
    plain template, without the note on a failure reason. *)
Lemma summary_empty_response_counterexample :
  llm_outcome world_mute (PStr "Hello world") [] [] "sk-test" "gpt-4" []
    = Returned None
  ∧ ∃ s log',
      generate_summary world_mute (PStr "Hello world") [] [] "sk-test" "gpt-4" []
        = (Returned s, log')
      ∧ ¬ annotated_fallback [] [] s.
Proof.
  split; [reflexivity|].
  do 2 eexists. split; [reflexivity|].
  intros (reason & Hne & Heq).
  destruct reason as [|c reason]; [apply Hne; reflexivity|].
  vm_compute in Heq. discriminate Heq.
Qed.

(** C7. The same dispatch call as for C3: its result breaks the invariant
    of the data model. *)
Lemma invariant_counterexample :
  ∃ r, produced world_silent r ∧ success r = false ∧ ¬ result_invariant r.
Proof.
  exists (mkServiceResult "A" "plagiarism" false ∅ (Some "")).
  split; [|split; [reflexivity|]].
  - apply (produced_check_plagiarism world_silent _ (PStr "Hello world") svcA []
             [HttpPost (dispatch_request (PStr "Hello world") svcA)]).
    reflexivity.
  - intros [_ H]. destruct (H eq_refl) as [_ Herr]. discriminate Herr.
Qed.

(** C8. With no rephrasing service the error text starts with a capital
    letter and the flow puts "Rephrasing failed: " in front of it. *)
Lemma rephrase_no_services_counterexample :
  ∃ v r detail,
    rephrase_with_first_enabled world_mixed (PStr "Hello world") [] []
      = (Returned (v, r), [])
    ∧ error r ≠ Some "no rephrasing services enabled"
    ∧ rephrase_text world_mixed "Hello world" []
      = (Raised (HTTPException 500 detail), [])
    ∧ detail ≠ "no rephrasing services enabled".
Proof.
  do 3 eexists. split; [reflexivity|]. split; [discriminate|].
  split; [reflexivity|]. discriminate.
Qed.

(* ===================================================================== *)
(** ** Further properties of the dispatcher                               *)
(* ===================================================================== *)

Section DispatcherMore.

Variable W : World.

(** The results a dispatch adds do not depend on the list it started from. *)
Lemma check_all_loop_acc text services : ∀ acc acc' log,
  ∃ rs log',
    check_all_loop W text services acc log = (Returned (acc ++ rs), log')
    ∧ check_all_loop W text services acc' log = (Returned (acc' ++ rs), log').
Proof.
  induction services as [|s rest IH]; intros acc acc' log; simpl.
  - exists [], log. rewrite !app_nil_r. split; reflexivity.
  - unfold mbind, M_bind.
    destruct (check_plagiarism_run W text s log) as (r & Hrun & _).
    rewrite Hrun.
    destruct (IH (acc ++ [r]) (acc' ++ [r])
                (log ++ [HttpPost (dispatch_request text s)]))
      as (rs & log' & H1 & H2).
    exists (r :: rs), log'. rewrite H1, H2, <- !app_assoc. split; reflexivity.
Qed.

Lemma check_all_loop_app text l1 l2 : ∀ acc log,
  check_all_loop W text (l1 ++ l2) acc log
  = (r1 ← check_all_loop W text l1 acc; check_all_loop W text l2 r1) log.
Proof.
  induction l1 as [|s rest IH]; intros acc log; simpl.
  - reflexivity.
  - unfold mbind, M_bind in *.
    destruct (check_plagiarism W text s log) as [[r|e] log1]; [|reflexivity].
    apply IH.
Qed.

(** X1. A category dispatch makes exactly one POST per service, in the
    order of the list, each to that service's URL with the text and the
    service's key, and makes no other call. *)
Theorem dispatch_calls_one_per_service (text : PyVal)
    (services : list ServiceConfig) (log : list Event) :
  ∃ results,
    check_all_plagiarism_services W text services log
    = (Returned results,
       log ++ map (λ s, HttpPost (service_request text
                                    (default "" (cfg_api_url s))
                                    (default "" (cfg_api_key s)))) services).
Proof.
  destruct (check_all_loop_run W text services [] log) as (rs & Hrun & _).
  exists rs. exact Hrun.
Qed.

(** X2. Dispatching to the list [l1 ++ l2] is dispatching to [l1] and then
    to [l2], with the two result lists appended. *)
Theorem dispatch_app (text : PyVal) (l1 l2 : list ServiceConfig)
    (log : list Event) :
  check_all_plagiarism_services W text (l1 ++ l2) log
  = (r1 ← check_all_plagiarism_services W text l1;
     r2 ← check_all_plagiarism_services W text l2;
     mret (r1 ++ r2)) log.
Proof.
  unfold check_all_plagiarism_services. rewrite check_all_loop_app.
  unfold mbind, M_bind.
  destruct (check_all_loop W text l1 [] log) as [[r1|e] log1]; [|reflexivity].
  destruct (check_all_loop_acc text l2 r1 [] log1) as (rs & log' & H1 & H2).
  rewrite H1, H2. reflexivity.
Qed.

Lemma check_plagiarism_history_free text service log :
  history_free W →
  (check_plagiarism W text service log).1 = (check_plagiarism W text service []).1.
Proof.
  intros Hfree. unfold check_plagiarism. run_call.
  rewrite (Hfree log []).
  destruct (http_post W [] _) as [d|[]]; reflexivity.
Qed.

Lemma check_all_loop_isolated text services : ∀ acc log,
  history_free W →
  ∃ rs log',
    check_all_loop W text services acc log = (Returned (acc ++ rs), log')
    ∧ Forall2 (λ s r, (check_plagiarism W text s []).1 = Returned r) services rs.
Proof.
  induction services as [|s rest IH]; intros acc log Hfree; simpl.
  - exists [], log. rewrite app_nil_r. split; [reflexivity | constructor].
  - unfold mbind, M_bind.
    destruct (check_plagiarism_run W text s log) as (r & Hrun & _).
    rewrite Hrun.
    destruct (IH (acc ++ [r]) (log ++ [HttpPost (dispatch_request text s)]) Hfree)
      as (rs & log' & Hrest & Hall).
    exists (r :: rs), log'. rewrite Hrest, <- app_assoc.
    split; [reflexivity|]. constructor; [|exact Hall].
    rewrite <- (check_plagiarism_history_free text s log Hfree), Hrun.
    reflexivity.
Qed.

(** X3. When the answers of the remote services do not depend on the calls
    made before, each result of a dispatch is the result its service gets
    when it is called alone: no service sees the failures or the answers of
    the others. *)
Theorem dispatch_isolated (text : PyVal) (services : list ServiceConfig)
    (log : list Event) :
  history_free W →
  ∃ results log',
    check_all_plagiarism_services W text services log = (Returned results, log')
    ∧ Forall2 (λ s r, (check_plagiarism W text s []).1 = Returned r)
        services results.
Proof.
  intros Hfree.
  destruct (check_all_loop_isolated text services [] log Hfree)
    as (rs & log' & Hrun & Hall).
  exists rs, log'. split; [exact Hrun | exact Hall].
Qed.

End DispatcherMore.

(* ===================================================================== *)
(** ** Further properties of the rephraser                                *)
(* ===================================================================== *)

Section RephraserMore.

Variable W : World.

(** X4. A service whose endpoint is the sentinel "openai" never makes an
    HTTP call.  It goes to the language model with the service's own key when
    that key is set and not empty, else with the environment's
    OPENAI_API_KEY, else with the empty key, asking the model "gpt-4" with
    the text as the user message.  When that returns, one completion call
    was made and the result is a success named "OpenAI Rephraser" that
    carries the content, the empty string standing for no content; when
    building the client or the call raises, the result is a failure named
    "OpenAI Rephraser" with the text of the exception as error. *)
Theorem openai_route_call (text : PyVal) (service : ServiceConfig)
    (log : list Event) (key : string) :
  cfg_api_url service = Some "openai" →
  key = match cfg_api_key service with
        | Some (String c rest) => String c rest
        | _ => match getenv W "OPENAI_API_KEY" with
               | Some env_key => env_key
               | None => ""
               end
        end →
  chat_api_key (rephrase_request text key) = key
  ∧ chat_model (rephrase_request text key) = "gpt-4"
  ∧ chat_messages (rephrase_request text key) !! 1%nat = Some (message "user" text)
  ∧ (∀ content,
       chat_create W log (rephrase_request text key) = Returned content →
       rephrase_text_with_service W text service log
       = (Returned
            (PStr (match content with Some (String c rest) => String c rest | _ => "" end),
             mkServiceResult "OpenAI Rephraser" "rephrasing" true
               {[ "rephrased_text" :=
                    PStr (match content with
                          | Some (String c rest) => String c rest
                          | _ => ""
                          end) ]} None),
          log ++ [ChatCreate (rephrase_request text key)]))
  ∧ (∀ e,
       chat_create W log (rephrase_request text key) = Raised e →
       ∃ log',
         rephrase_text_with_service W text service log
         = (Returned
              (PStr "",
               mkServiceResult "OpenAI Rephraser" "rephrasing" false ∅
                 (Some (exc_str e))),
            log'))
  ∧ ∃ v r rest,
      rephrase_text_with_service W text service log = (Returned (v, r), log ++ rest)
      ∧ ∀ request, HttpPost request ∉ rest.
Proof.
  intros Hurl Hkey.
  assert (Hroute : rephrase_text_with_service W text service log
                   = rephrase_text_with_openai W text key log).
  { unfold rephrase_text_with_service. rewrite Hurl. simpl.
    f_equal. rewrite Hkey.
    destruct (cfg_api_key service) as [[|c rest]|]; simpl;
      destruct (getenv W "OPENAI_API_KEY"); reflexivity. }
  rewrite Hroute.
  do 3 (split; [reflexivity|]).
  unfold rephrase_text_with_openai. run_call.
  split; [|split].
  - intros content ->. destruct content as [[|c rest]|]; reflexivity.
  - intros e ->. eexists. reflexivity.
  - destruct (chat_create W log (rephrase_request text key)) as [content|e];
      do 3 eexists; (split; [reflexivity|]);
      intros request Hin; apply list_elem_of_singleton in Hin; discriminate Hin.
Qed.

(** In a non-empty list, either some service is the first to succeed or the
    attempts fail down to the last one. *)
Lemma attempts_cases text : ∀ services log,
  services ≠ [] →
  (∃ pre s post log1 v r log2,
      services = pre ++ s :: post
      ∧ run_failing W text pre log = Some log1
      ∧ rephrase_text_with_service W text s log1 = (Returned (v, r), log2)
      ∧ success r = true)
  ∨ (∃ pre s log1 v r log2,
      services = pre ++ [s]
      ∧ run_failing W text pre log = Some log1
      ∧ rephrase_text_with_service W text s log1 = (Returned (v, r), log2)
      ∧ success r = false).
Proof.
  induction services as [|c rest IH]; intros log Hne; [congruence|].
  destruct (rephrase_text_with_service_run W text c log) as (vc & rc & Hc).
  destruct (success rc) eqn:Hok.
  - left. exists [], c, rest, log, vc, rc. eexists.
    split; [reflexivity|]. split; [reflexivity|]. split; [exact Hc | exact Hok].
  - destruct rest as [|c' rest'].
    + right. exists [], c, log, vc, rc. eexists.
      split; [reflexivity|]. split; [reflexivity|]. split; [exact Hc | exact Hok].
    + assert (Hstep : ∀ pre log1,
                run_failing W text pre (log ++ [call_event W text c]) = Some log1 →
                run_failing W text (c :: pre) log = Some log1).
      { intros pre log1 H. simpl. rewrite Hc, Hok. exact H. }
      destruct (IH (log ++ [call_event W text c]) ltac:(discriminate))
        as [(pre & s & post & log1 & v & r & log2 & -> & Hpre & Hs & Hr)
           |(pre & s & log1 & v & r & log2 & Heq & Hpre & Hs & Hr)].
      * left. exists (c :: pre), s, post, log1, v, r, log2.
        split; [reflexivity|]. split; [apply Hstep, Hpre|]. split; assumption.
      * right. exists (c :: pre), s, log1, v, r, log2.
        split; [rewrite Heq; reflexivity|].
        split; [apply Hstep, Hpre|]. split; assumption.
Qed.

(** X5. The rephraser never raises, and on a non-empty list what it returns
    is always the outcome of an attempt on a service of the list: the text
    and result of the first service that succeeds, the services in front of
    it having failed, or, when every attempt fails, the empty string with the
    result of the last service.  The closing fallback result of the code
    ("No rephrasing services available") is never returned. *)
Theorem rephrase_first_success_or_last_failure (text : PyVal)
    (services : list ServiceConfig) (log : list Event) :
  services ≠ [] →
  (∃ pre s post log1 v r log2,
      services = pre ++ s :: post
      ∧ run_failing W text pre log = Some log1
      ∧ rephrase_text_with_service W text s log1 = (Returned (v, r), log2)
      ∧ success r = true
      ∧ rephrase_with_first_enabled W text services log = (Returned (v, r), log2))
  ∨ (∃ pre s log1 v r log2,
      services = pre ++ [s]
      ∧ run_failing W text pre log = Some log1
      ∧ rephrase_text_with_service W text s log1 = (Returned (v, r), log2)
      ∧ success r = false
      ∧ rephrase_with_first_enabled W text services log
        = (Returned (PStr "", r), log2)).
Proof.
  intros Hne.
  destruct (attempts_cases text services log Hne)
    as [(pre & s & post & log1 & v & r & log2 & -> & Hpre & Hs & Hr)
       |(pre & s & log1 & v & r & log2 & -> & Hpre & Hs & Hr)].
  - left. exists pre, s, post, log1, v, r, log2.
    do 4 (split; [auto|]).
    assert (Hloop := rephrase_loop_first_success W text s post v r log2
                       pre None log log1 Hpre Hs Hr).
    destruct pre; exact Hloop.
  - right. exists pre, s, log1, v, r, log2.
    do 4 (split; [auto|]).
    assert (Hloop := rephrase_loop_all_fail W text s v r log2
                       pre None log log1 Hpre Hs Hr).
    destruct pre; exact Hloop.
Qed.

(** X6. A rephrase that is reported as failed never carries a text: with a
    failure result the rephraser returns the empty string, for every service
    list, the empty one included. *)
Theorem rephrase_failure_has_no_text (text : PyVal)
    (services : list ServiceConfig) (log log' : list Event)
    (v : PyVal) (r : ServiceResult) :
  rephrase_with_first_enabled W text services log = (Returned (v, r), log') →
  success r = false →
  v = PStr "".
Proof.
  intros Hrun Hko.
  destruct services as [|c rest].
  - injection Hrun as <- _ _. reflexivity.
  - rewrite rephrase_with_first_enabled_cons in Hrun.
    destruct (attempts_cases text (c :: rest) log ltac:(discriminate))
      as [(pre & s & post & log1 & v1 & r1 & log2 & Heq & Hpre & Hs & Hr)
         |(pre & s & log1 & v1 & r1 & log2 & Heq & Hpre & Hs & Hr)];
      rewrite Heq in Hrun.
    + rewrite (rephrase_loop_first_success W text s post v1 r1 log2
                 pre None log log1 Hpre Hs Hr) in Hrun.
      injection Hrun as _ <- _. congruence.
    + rewrite (rephrase_loop_all_fail W text s v1 r1 log2
                 pre None log log1 Hpre Hs Hr) in Hrun.
      injection Hrun as <- _ _. reflexivity.
Qed.

(** X7. On the language-model route a completion without content ([None]
    or the empty string) is reported as a success whose rephrased text and
    payload entry are the empty string, not as a failure. *)
Theorem openai_empty_completion_is_success (text : PyVal) (api_key : string)
    (log : list Event) (content : option string) :
  chat_create W log (rephrase_request text api_key) = Returned content →
  opt_truthy content = false →
  rephrase_text_with_openai W text api_key log
  = (Returned (PStr "",
               mkServiceResult "OpenAI Rephraser" "rephrasing" true
                 {[ "rephrased_text" := PStr "" ]} None),
     log ++ [ChatCreate (rephrase_request text api_key)]).
Proof.
  intros Hchat Hempty. unfold rephrase_text_with_openai. run_call.
  rewrite Hchat, Hempty. reflexivity.
Qed.

End RephraserMore.

(* ===================================================================== *)
(** ** Further properties of the summary generator                        *)
(* ===================================================================== *)

Section SummarizerMore.

Variable W : World.

(** X8. The summary generator never raises, whatever the credential, and
    makes at most one outbound call, which is a completion call for the
    prepared context: it never makes an HTTP call. *)
Theorem summary_at_most_one_call (text : PyVal)
    (plagiarism_results ai_detection_results : list ServiceResult)
    (key model : string) (log : list Event) :
  ∃ s log',
    generate_summary W text plagiarism_results ai_detection_results key model log
      = (Returned s, log')
    ∧ (log' = log
       ∨ ∃ context,
           _prepare_results_context W text plagiarism_results ai_detection_results
             = Returned context
           ∧ log' = log ++ [ChatCreate (summary_request context key model)]).
Proof.
  unfold generate_summary.
  destruct (str_truthy key); simpl negb; cbv iota.
  - run_call.
    destruct (_prepare_results_context W text plagiarism_results ai_detection_results)
      as [context|e].
    + destruct (chat_create W log _) as [content|e];
        do 2 eexists; (split; [reflexivity|]); right; eauto.
    + do 2 eexists. split; [reflexivity|]. left. reflexivity.
  - do 2 eexists. split; [reflexivity|]. left. reflexivity.
Qed.

Lemma substring_prefix_idem (n : nat) : ∀ s,
  String.substring 0 n (String.substring 0 n s) = String.substring 0 n s.
Proof.
  induction n as [|n IH]; intros [|c s]; simpl; try reflexivity.
  rewrite IH. reflexivity.
Qed.

Lemma prepare_context_clipped s plagiarism_results ai_detection_results :
  _prepare_results_context W (PStr s) plagiarism_results ai_detection_results
  = _prepare_results_context W (PStr (String.substring 0 500 s))
      plagiarism_results ai_detection_results.
Proof.
  unfold _prepare_results_context, slice500.
  rewrite substring_prefix_idem. reflexivity.
Qed.

(** X9. For a text that is a string, preparing the context never raises,
    and the summary generator depends on the text through its first 500
    characters only: the summary and the calls made are those for the text
    cut after 500 characters. *)
Theorem summary_reads_first_500_chars (s : string)
    (plagiarism_results ai_detection_results : list ServiceResult)
    (key model : string) (log : list Event) :
  (∃ context,
     _prepare_results_context W (PStr s) plagiarism_results ai_detection_results
       = Returned context)
  ∧ generate_summary W (PStr s) plagiarism_results ai_detection_results key model log
    = generate_summary W (PStr (String.substring 0 500 s))
        plagiarism_results ai_detection_results key model log.
Proof.
  split.
  - unfold _prepare_results_context, slice500. eexists. reflexivity.
  - unfold generate_summary. rewrite prepare_context_clipped. reflexivity.
Qed.

End SummarizerMore.

Section FallbackMore.

Lemma section_text_view none_enabled completed : ∀ l l',
  map result_view l = map result_view l' →
  section_text none_enabled completed l = section_text none_enabled completed l'.
Proof.
  assert (Hlines : ∀ l l', map result_view l = map result_view l' →
    map (λ r, "- **" +:+ service_name r +:+ "**: " +:+ completed +:+ nl)
        (List.filter success l)
    = map (λ r, "- **" +:+ service_name r +:+ "**: " +:+ completed +:+ nl)
        (List.filter success l')
    ∧ map failed_line (List.filter (λ r, negb (success r)) l)
      = map failed_line (List.filter (λ r, negb (success r)) l')).
  { induction l as [|r l IH]; intros [|r' l'] H; try discriminate;
      [split; reflexivity|].
    injection H as Hn Hs He Htl. destruct (IH _ Htl) as [IH1 IH2].
    simpl. rewrite <- Hs.
    destruct (success r); simpl; split; rewrite ?IH1, ?IH2;
      unfold failed_line; rewrite ?Hn, ?He; reflexivity. }
  intros l l' H. unfold section_text.
  destruct (Hlines _ _ H) as [H1 H2].
  destruct l as [|r l], l' as [|r' l']; try discriminate; [reflexivity|].
  rewrite H1, H2. reflexivity.
Qed.

(** X10. The deterministic summary reads of each result only its service
    name, its success flag and its error: the payload returned by a service
    and the service type never reach the summary. *)
Theorem fallback_ignores_payloads
    (plagiarism_results plagiarism_results' : list ServiceResult)
    (ai_detection_results ai_detection_results' : list ServiceResult)
    (error : option string) :
  map result_view plagiarism_results = map result_view plagiarism_results' →
  map result_view ai_detection_results = map result_view ai_detection_results' →
  _generate_fallback_summary plagiarism_results ai_detection_results error
  = _generate_fallback_summary plagiarism_results' ai_detection_results' error.
Proof.
  intros Hp Ha. rewrite !fallback_summary_shape.
  rewrite (section_text_view _ _ _ _ Hp), (section_text_view _ _ _ _ Ha).
  reflexivity.
Qed.

Lemma section_lines_permutation completed (l : list ServiceResult) :
  map (λ r, "- **" +:+ service_name r +:+ "**: " +:+ completed +:+ nl)
      (List.filter success l)
  ++ map failed_line (List.filter (λ r, negb (success r)) l)
  ≡ₚ map (summary_line completed) l.
Proof.
  induction l as [|r l IH]; [reflexivity|].
  simpl.
  change (summary_line completed r)
    with (if success r
          then "- **" +:+ service_name r +:+ "**: " +:+ completed +:+ nl
          else failed_line r).
  destruct (success r); simpl.
  - apply perm_skip. exact IH.
  - rewrite <- Permutation_middle. apply perm_skip. exact IH.
Qed.

(** X11. In the deterministic summary every result of a non-empty category
    has exactly one line, the same line it would have alone; the lines of
    the successes come first, then those of the failures, each group in the
    order of the results.  This holds of each category on its own, whatever
    the other category holds; a category without results has its "none
    enabled" line instead. *)
Theorem fallback_one_line_per_result
    (plagiarism_results ai_detection_results : list ServiceResult)
    (error : option string) :
  ∃ plagiarism_lines ai_lines,
    _generate_fallback_summary plagiarism_results ai_detection_results error
    = ("## Analysis Summary" +:+ nl +:+ nl)
      +:+ (if opt_truthy error
           then "*Note: AI summary generation encountered an issue: "
                +:+ format_error error +:+ "*" +:+ nl +:+ nl
           else "")
      +:+ ("### Plagiarism Check" +:+ nl)
      +:+ String.concat "" plagiarism_lines
      +:+ (nl +:+ "### AI Content Detection" +:+ nl)
      +:+ String.concat "" ai_lines
      +:+ (nl +:+ "### Recommendations" +:+ nl)
      +:+ ("Review the detailed results from each service to understand the analysis findings." +:+ nl)
    ∧ (plagiarism_results ≠ [] →
       plagiarism_lines
       = map (summary_line "Check completed") (List.filter success plagiarism_results)
         ++ map (summary_line "Check completed")
              (List.filter (λ r, negb (success r)) plagiarism_results)
       ∧ plagiarism_lines ≡ₚ map (summary_line "Check completed") plagiarism_results)
    ∧ (plagiarism_results = [] →
       plagiarism_lines = [ "No plagiarism checkers were enabled." +:+ nl ])
    ∧ (ai_detection_results ≠ [] →
       ai_lines
       = map (summary_line "Detection completed") (List.filter success ai_detection_results)
         ++ map (summary_line "Detection completed")
              (List.filter (λ r, negb (success r)) ai_detection_results)
       ∧ ai_lines ≡ₚ map (summary_line "Detection completed") ai_detection_results)
    ∧ (ai_detection_results = [] →
       ai_lines = [ "No AI detectors were enabled." +:+ nl ]).
Proof.
  assert (Hgroups : ∀ completed (l : list ServiceResult),
    map (λ r, "- **" +:+ service_name r +:+ "**: " +:+ completed +:+ nl)
        (List.filter success l)
    ++ map failed_line (List.filter (λ r, negb (success r)) l)
    = map (summary_line completed) (List.filter success l)
      ++ map (summary_line completed) (List.filter (λ r, negb (success r)) l)).
  { intros completed l. f_equal; apply map_ext_in; intros r Hr;
      apply filter_In in Hr; destruct Hr as [_ Hr]; unfold summary_line.
    - rewrite Hr. reflexivity.
    - apply negb_true_iff in Hr. rewrite Hr. reflexivity. }
  assert (Hsection : ∀ none_enabled completed (l : list ServiceResult),
    ∃ lines,
      section_text none_enabled completed l = String.concat "" lines
      ∧ (l ≠ [] →
         lines = map (summary_line completed) (List.filter success l)
                 ++ map (summary_line completed)
                      (List.filter (λ r, negb (success r)) l)
         ∧ lines ≡ₚ map (summary_line completed) l)
      ∧ (l = [] → lines = [ none_enabled +:+ nl ])).
  { intros none_enabled completed l. unfold section_text.
    destruct l as [|r0 rs].
    - eexists. split; [reflexivity|]. split; [congruence | reflexivity].
    - eexists. split; [rewrite Hgroups; reflexivity|].
      split; [|discriminate]. intros _. split; [reflexivity|].
      rewrite <- Hgroups. apply section_lines_permutation. }
  destruct (Hsection "No plagiarism checkers were enabled." "Check completed"
              plagiarism_results) as (pl & Hp & Hp1 & Hp0).
  destruct (Hsection "No AI detectors were enabled." "Detection completed"
              ai_detection_results) as (al & Ha & Ha1 & Ha0).
  exists pl, al. rewrite fallback_summary_shape, Hp, Ha.
  split; [reflexivity|]. repeat split; auto; apply Hp1 || apply Ha1; assumption.
Qed.

End FallbackMore.

(* ===================================================================== *)
(** ** Properties of the configuration functions                          *)
(* ===================================================================== *)

Section ConfigMore.

Lemma filter_sublist {A} (f : A → bool) (l : list A) : List.filter f l `sublist_of` l.
Proof.
  induction l as [|x l IH]; simpl; [constructor|].
  destruct (f x); [apply sublist_skip | apply sublist_cons]; exact IH.
Qed.

(** X12. [get_enabled_services] returns the entries of the category that
    have [enabled] set to true, in the order of the configuration, and
    nothing else: an entry without the [enabled] key is left out.  When the
    configuration has no [services] mapping or the mapping has no such
    category, the result is the empty list. *)
Theorem enabled_services_exactly (config : Config) (service_type : string) :
  (∀ categories listed,
     config_services config = Some categories →
     categories !! service_type = Some listed →
     get_enabled_services config service_type `sublist_of` listed
     ∧ ∀ s, s ∈ get_enabled_services config service_type
            ↔ s ∈ listed ∧ cfg_enabled s = Some true)
  ∧ (config_services config = None → get_enabled_services config service_type = [])
  ∧ (∀ categories,
       config_services config = Some categories →
       categories !! service_type = None →
       get_enabled_services config service_type = []).
Proof.
  unfold get_enabled_services. split; [|split].
  - intros categories listed -> Hcat. simpl. rewrite Hcat. simpl.
    split; [apply filter_sublist|].
    intros s. rewrite !list_elem_of_In, filter_In.
    split; intros [Hin Hen]; (split; [exact Hin|]).
    + destruct (cfg_enabled s) as [[]|]; simpl in Hen; congruence.
    + rewrite Hen. reflexivity.
  - intros ->. reflexivity.
  - intros categories -> Hcat. simpl. rewrite Hcat. reflexivity.
Qed.

Lemma length_append (s1 s2 : string) :
  String.length (s1 +:+ s2) = (String.length s1 + String.length s2)%nat.
Proof.
  induction s1 as [|c s1 IH]; [reflexivity|].
  change (S (String.length (s1 +:+ s2)) = S (String.length s1 + String.length s2)).
  rewrite IH. reflexivity.
Qed.

Lemma substring_all (s : string) : String.substring 0 (String.length s) s = s.
Proof. induction s as [|c s IH]; simpl; [|rewrite IH]; reflexivity. Qed.

Lemma substring_append_l (s1 s2 : string) :
  String.substring 0 (String.length s1) (s1 +:+ s2) = s1.
Proof.
  induction s1 as [|c s1 IH]; [destruct s2; reflexivity|].
  change (String c (String.substring 0 (String.length s1) (s1 +:+ s2)) = String c s1).
  rewrite IH. reflexivity.
Qed.

Lemma substring_append_r (s1 s2 : string) :
  String.substring (String.length s1) (String.length s2) (s1 +:+ s2) = s2.
Proof.
  induction s1 as [|c s1 IH]; [apply substring_all|].
  change (String.substring (String.length s1) (String.length s2) (s1 +:+ s2) = s2).
  exact IH.
Qed.

Lemma substring_split (k : nat) : ∀ s,
  (k ≤ String.length s)%nat →
  s = String.substring 0 k s +:+ String.substring k (String.length s - k) s.
Proof.
  induction k as [|k IH]; intros s Hk.
  - rewrite Nat.sub_0_r, substring_all. destruct s; reflexivity.
  - destruct s as [|c s]; simpl in Hk; [lia|].
    change (String c s
            = String c (String.substring 0 k s
                        +:+ String.substring k (String.length s - k) s)).
    rewrite <- IH by lia. reflexivity.
Qed.

Lemma endswith_app (s suffix : string) : endswith (s +:+ suffix) suffix = true.
Proof.
  unfold endswith. rewrite length_append.
  replace (String.length s + String.length suffix - String.length suffix)%nat
    with (String.length s) by lia.
  rewrite substring_append_r, String.eqb_refl, andb_true_r.
  apply Nat.leb_le. lia.
Qed.

Lemma endswith_inv (s suffix : string) :
  endswith s suffix = true → ∃ before, s = before +:+ suffix.
Proof.
  unfold endswith. intros H. apply andb_true_iff in H as [Hlen Heq].
  apply Nat.leb_le in Hlen. apply String.eqb_eq in Heq.
  exists (String.substring 0 (String.length s - String.length suffix) s).
  rewrite (substring_split (String.length s - String.length suffix) s) at 1 by lia.
  replace (String.length s - (String.length s - String.length suffix))%nat
    with (String.length suffix) by lia.
  rewrite Heq. reflexivity.
Qed.

Lemma startswith_dollar_brace (s : string) :
  startswith s "${" = true → ∃ rest, s = "${" +:+ rest.
Proof.
  unfold startswith. intros H. apply String.prefix_correct in H.
  destruct s as [|a [|b rest]]; simpl in H; try discriminate.
  injection H as -> -> _. exists rest. reflexivity.
Qed.

(** The two tests of the code single out the strings made of "${", a name
    and "}". *)
Lemma is_placeholder_spec (s : string) :
  ConfigFile.is_placeholder s = true ↔ ∃ name, s = "${" +:+ name +:+ "}".
Proof.
  unfold ConfigFile.is_placeholder. split.
  - intros H. apply andb_true_iff in H as [Hstart Hend].
    destruct (startswith_dollar_brace s Hstart) as (rest & ->).
    destruct (endswith_inv _ _ Hend) as (before & Heq).
    destruct before as [|a [|b name]];
      cbv beta iota fix delta [String.append] in Heq.
    + discriminate Heq.
    + discriminate Heq.
    + injection Heq as _ _ ->. exists name. reflexivity.
  - intros (name & ->). apply andb_true_iff. split.
    + unfold startswith. apply String.prefix_correct. apply substring_append_l.
    + rewrite <- append_assoc. apply endswith_app.
Qed.

Lemma env_var_placeholder (name : string) :
  ConfigFile.env_var ("${" +:+ name +:+ "}") = name.
Proof.
  unfold ConfigFile.env_var.
  rewrite !length_append.
  replace (String.length "${" + (String.length name + String.length "}") - 3)%nat
    with (String.length name) by (simpl; lia).
  change (String.substring 0 (String.length name) (name +:+ "}") = name).
  apply substring_append_l.
Qed.

Variable W : World.

(** X13. A string made of "${", a name and "}" is replaced by the value of
    the environment variable of that name, and by the empty string when the
    variable is not set, whatever the name is: everything between the opening
    "${" and the last "}" is the name, so "${A}${B}" asks for the variable
    "A}${B". *)
Theorem substitute_placeholder (name : string) :
  ConfigFile._substitute_env_vars W (PStr ("${" +:+ name +:+ "}"))
  = PStr (match getenv W name with Some value => value | None => "" end).
Proof.
  simpl.
  rewrite (proj2 (is_placeholder_spec _)) by eauto.
  rewrite env_var_placeholder. destruct (getenv W name); reflexivity.
Qed.

Lemma substitute_env_vars_fixed (v : PyVal) :
  placeholder_free v → ConfigFile._substitute_env_vars W v = v.
Proof.
  induction 1 as [| | | |s Hs|l Hl IH|d Hd IH]; try reflexivity.
  - simpl. destruct (ConfigFile.is_placeholder s) eqn:E; [|reflexivity].
    apply is_placeholder_spec in E as (name & ->). destruct (Hs name eq_refl).
  - simpl. f_equal. induction l as [|x l IHl]; [reflexivity|].
    simpl. rewrite (IH x) by (left). f_equal.
    apply IHl; intros v Hv; [apply Hl | apply IH]; right; exact Hv.
  - simpl. f_equal. apply map_eq. intros k. rewrite lookup_fmap.
    destruct (d !! k) as [v|] eqn:E; [|reflexivity].
    simpl. rewrite (IH k v E). reflexivity.
Qed.

(** X14. Substitution changes nothing else: a document in which no string
    has the form "${...}" comes back unchanged, at every depth; in
    particular a string that only contains a placeholder, such as
    "Bearer ${KEY}", is not expanded. *)
Theorem substitute_placeholder_free (v : PyVal) :
  placeholder_free v → ConfigFile._substitute_env_vars W v = v.
Proof. apply substitute_env_vars_fixed. Qed.

(** X15. [load_config] reads the file named by its argument, else by the
    environment variable CONFIG_PATH, else config/services.yaml.  A file that
    does not exist raises FileNotFoundError with a message that names the
    path; a parsed document without placeholders is returned as parsed. *)
Theorem load_config_path_and_result (FS : FileSystem) :
  (∀ path, path_exists FS path = false →
     ConfigFile.load_config W FS (Some path)
     = Raised (FileNotFoundError ("Configuration file not found: " +:+ path)))
  ∧ ConfigFile.load_config W FS None
    = ConfigFile.load_config W FS
        (Some (match getenv W "CONFIG_PATH" with
               | Some path => path
               | None => "config/services.yaml"
               end))
  ∧ (∀ path document,
       path_exists FS path = true →
       yaml_safe_load FS path = Returned document →
       placeholder_free document →
       ConfigFile.load_config W FS (Some path) = Returned document).
Proof.
  unfold ConfigFile.load_config. split; [|split].
  - intros path ->. reflexivity.
  - destruct (getenv W "CONFIG_PATH"); reflexivity.
  - intros path document -> -> Hfree. simpl.
    rewrite (substitute_env_vars_fixed _ Hfree). reflexivity.
Qed.

End ConfigMore.

(* ===================================================================== *)
(** ** Properties of the PDF text extraction                              *)
(* ===================================================================== *)

Section PdfMore.

Variable P : PdfLibrary.

Lemma collect_page_texts_returned texts : ∀ text_parts,
  collect_page_texts (map Returned texts) text_parts
  = Returned (text_parts ++ page_texts texts).
Proof.
  induction texts as [|t texts IH]; intros text_parts; simpl.
  - rewrite app_nil_r. reflexivity.
  - destruct t as [[|c rest]|]; simpl; rewrite IH; [reflexivity| |reflexivity].
    rewrite <- app_assoc. reflexivity.
Qed.

Lemma collect_page_texts_nonempty pages : ∀ text_parts parts,
  collect_page_texts pages text_parts = Returned parts →
  Forall (λ t, t ≠ "") text_parts →
  Forall (λ t, t ≠ "") parts.
Proof.
  induction pages as [|page pages IH]; intros text_parts parts; simpl.
  - intros [= <-] H. exact H.
  - destruct page as [page_text|e]; [|discriminate].
    destruct page_text as [[|c rest]|]; simpl; intros Hrun Hall;
      try (eapply IH; eassumption).
    eapply IH; [exact Hrun|]. apply Forall_app. split; [exact Hall|].
    constructor; [discriminate | constructor].
Qed.

Lemma join_nonempty (sep t : string) (parts : list string) :
  t ≠ "" → String.concat sep (t :: parts) ≠ "".
Proof.
  intros Ht. destruct t as [|c t]; [congruence|].
  destruct parts; simpl; discriminate.
Qed.

(** X16. [extract_text_from_pdf] never returns an empty text: it returns a
    non-empty string or raises a ValueError, and the message of every
    ValueError it raises starts with "Failed to extract text from PDF: ". *)
Theorem extract_text_nonempty_or_error (pdf_file : BinaryIO) :
  match extract_text_from_pdf P pdf_file with
  | Extracted text => text ≠ ""
  | ValueError msg => ∃ reason, msg = "Failed to extract text from PDF: " +:+ reason
  end.
Proof.
  unfold extract_text_from_pdf.
  destruct (bio_read pdf_file) as [content|e]; [|eauto].
  destruct (pdfplumber_open P content) as [pages|e]; [|eauto].
  destruct (collect_page_texts pages []) as [parts|e] eqn:Hparts; [|eauto].
  destruct parts as [|t parts]; [eauto|].
  apply join_nonempty.
  assert (H := collect_page_texts_nonempty _ _ _ Hparts (Forall_nil_2 _)).
  inversion H; assumption.
Qed.

(** X17. When the document opens and every page gives its text, the
    extracted text is the texts of the pages that have one, in page order,
    joined by a blank line; pages without text ([None] or the empty string)
    leave no trace, not even a separator.  When no page has text the call
    raises the ValueError "Failed to extract text from PDF: No text content
    found in PDF". *)
Theorem extract_text_joins_pages (content : list Byte.byte)
    (texts : list (option string)) :
  pdfplumber_open P content = Returned (map Returned texts) →
  extract_text_from_pdf P (BytesIO content)
  = match page_texts texts with
    | [] => ValueError "Failed to extract text from PDF: No text content found in PDF"
    | parts => Extracted (String.concat (nl +:+ nl) parts)
    end.
Proof.
  intros Hopen. unfold extract_text_from_pdf, BytesIO. simpl.
  rewrite Hopen, collect_page_texts_returned. simpl.
  destruct (page_texts texts); reflexivity.
Qed.

End PdfMore.

(* ===================================================================== *)
(** ** Properties of the two request handlers                             *)
(* ===================================================================== *)

Section HandlersMore.

Variable W : World.
Variable P : PdfLibrary.

Lemma not_blank_truthy (text : string) :
  strip_is_empty text = false → str_truthy text = true.
Proof. destruct text; [discriminate | reflexivity]. Qed.

Lemma detect_all_loop_run text services : ∀ results log,
  ∃ rs, detect_all_loop W text services results log
          = (Returned (results ++ rs),
             log ++ map (λ s, HttpPost (dispatch_request text s)) services).
Proof.
  induction services as [|s rest IH]; intros results log; simpl.
  - exists []. rewrite !app_nil_r. reflexivity.
  - assert (Hrun : ∃ r, detect_ai W text s log
                          = (Returned r, log ++ [HttpPost (dispatch_request text s)])).
    { unfold detect_ai, dispatch_request. run_call.
      destruct (http_post W log _) as [d|[]]; eexists; reflexivity. }
    destruct Hrun as (r & Hrun). unfold mbind, M_bind. rewrite Hrun.
    destruct (IH (results ++ [r]) (log ++ [HttpPost (dispatch_request text s)]))
      as (rs & Hrest).
    exists (r :: rs). rewrite Hrest, <- !app_assoc. reflexivity.
Qed.

Lemma generate_summary_returns text plagiarism_results ai_detection_results
    key model log :
  ∃ s rest,
    generate_summary W text plagiarism_results ai_detection_results key model log
    = (Returned s, log ++ rest).
Proof.
  unfold generate_summary.
  destruct (str_truthy key); simpl negb; cbv iota.
  - run_call.
    destruct (_prepare_results_context W text plagiarism_results ai_detection_results)
      as [context|e].
    + destruct (chat_create W log _) as [content|e];
        do 2 eexists; reflexivity.
    + exists (_generate_fallback_summary plagiarism_results ai_detection_results
                (Some (exc_str e))), [].
      rewrite app_nil_r. reflexivity.
  - exists (_generate_fallback_summary plagiarism_results ai_detection_results None), [].
    rewrite app_nil_r. reflexivity.
Qed.

(** X18. Both handlers reject a text that is empty or made of white space
    only with the error 400 before anything else happens: the configuration
    is not looked at and no call is made.  The check handler does the same
    when neither a text nor a file is supplied. *)
Theorem blank_text_rejected (text : string) (log : list Event) :
  strip_is_empty text = true →
  rephrase_text W text log
    = (Raised (HTTPException 400 "No text provided for rephrasing."), log)
  ∧ check_text W P (Some text) None log
    = (Raised (HTTPException 400
                 "No text provided. Please provide text or upload a PDF file."), log)
  ∧ check_text W P None None log
    = (Raised (HTTPException 400
                 "No text provided. Please provide text or upload a PDF file."), log).
Proof.
  intros Hblank. split; [|split].
  - unfold rephrase_text. rewrite Hblank, orb_true_r. reflexivity.
  - unfold check_text, uploaded_text, mbind, M_bind, mret, M_ret.
    cbv beta iota. change (default "" (Some text)) with text.
    rewrite Hblank, orb_true_r. reflexivity.
  - reflexivity.
Qed.

(** X19. For a text that passes validation, a configuration that cannot be
    loaded stops both handlers before any call: a missing file becomes the
    error 500 with the message of the FileNotFoundError as detail, and any
    other exception leaves the handler as it is. *)
Theorem config_failure_stops_handlers (text : string) (e : Exc)
    (log : list Event) :
  strip_is_empty text = false →
  load_config W = Raised e →
  let raised := match e with
                | FileNotFoundError msg => HTTPException 500 msg
                | _ => e
                end in
  rephrase_text W text log = (Raised raised, log)
  ∧ check_text W P (Some text) None log = (Raised raised, log).
Proof.
  intros Hvalid Hload raised. subst raised.
  assert (Htruthy := not_blank_truthy text Hvalid).
  split.
  - unfold rephrase_text. rewrite Htruthy, Hvalid. cbn [negb orb].
    unfold mbind, M_bind, try_except, lift_outcome. rewrite Hload.
    destruct e; reflexivity.
  - unfold check_text, uploaded_text, mbind, M_bind, mret, M_ret.
    cbv beta iota. change (default "" (Some text)) with text.
    change (opt_truthy (Some text)) with (str_truthy text).
    rewrite Htruthy, Hvalid. cbn [negb orb].
    unfold try_except, lift_outcome. rewrite Hload.
    destruct e; reflexivity.
Qed.

(** X20. In the rephrase flow, a rephrasing service that answers with a
    success but no text (an empty string, or a body with neither key) stops
    the flow with the error 500 "Rephrasing returned empty text": the
    success ends the fallback, so the services after it are not tried, and
    no plagiarism or AI-detection call is made; the calls made are the
    attempts on the services in front of it and on that service. *)
Theorem rephrase_flow_aborts_on_empty_text (text : string) (config : Config)
    (pre post : list ServiceConfig) (s : ServiceConfig)
    (log log1 log2 : list Event) (v : PyVal) (r : ServiceResult) :
  strip_is_empty text = false →
  load_config W = Returned config →
  get_enabled_services config "rephrasing" = pre ++ s :: post →
  run_failing W (PStr text) pre log = Some log1 →
  rephrase_text_with_service W (PStr text) s log1 = (Returned (v, r), log2) →
  success r = true →
  truthy v = false →
  rephrase_text W text log
    = (Raised (HTTPException 500 "Rephrasing returned empty text"),
       log ++ map (call_event W (PStr text)) (pre ++ [s])).
Proof.
  intros Hvalid Hload Hlist Hpre Hs Hok Hempty.
  assert (Htruthy := not_blank_truthy text Hvalid).
  assert (Hrun : rephrase_with_first_enabled W (PStr text) (pre ++ s :: post) log
                 = (Returned (v, r), log2)).
  { assert (Hloop := rephrase_loop_first_success W (PStr text) s post v r log2
                       pre None log log1 Hpre Hs Hok).
    destruct pre; exact Hloop. }
  assert (Hlog : log2 = log ++ map (call_event W (PStr text)) (pre ++ [s])).
  { destruct (rephrase_text_with_service_run W (PStr text) s log1) as (v' & r' & H).
    rewrite H in Hs. injection Hs as _ _ <-.
    rewrite (run_failing_log W _ _ _ _ Hpre), map_app, app_assoc. reflexivity. }
  unfold rephrase_text. rewrite Htruthy, Hvalid. cbn [negb orb].
  unfold mbind, M_bind, try_except, lift_outcome.
  rewrite Hload, Hlist, Hrun, Hok, Hempty, Hlog. reflexivity.
Qed.

(** X21. The key of the language model comes from the configuration when
    its [openai] section has an [api_key], even an empty one, and from the
    environment variable OPENAI_API_KEY only when the section or the key is
    missing.  So a key that is configured as the empty string switches the
    language model off, whatever the environment holds: the summary is the
    deterministic one and no completion call is made. *)
Theorem openai_key_precedence (config : Config) :
  (∀ section key,
     config_openai config = Some section → section !! "api_key" = Some key →
     openai_api_key (get_openai_config W config) = key)
  ∧ ((config_openai config = None
      ∨ ∃ section, config_openai config = Some section
                   ∧ section !! "api_key" = None) →
     openai_api_key (get_openai_config W config)
     = match getenv W "OPENAI_API_KEY" with Some key => key | None => "" end)
  ∧ (∀ section text plagiarism_results ai_detection_results log,
       config_openai config = Some section → section !! "api_key" = Some "" →
       generate_summary W text plagiarism_results ai_detection_results
         (openai_api_key (get_openai_config W config))
         (openai_model (get_openai_config W config)) log
       = (Returned (_generate_fallback_summary plagiarism_results
                      ai_detection_results None), log)).
Proof.
  unfold get_openai_config. split; [|split].
  - intros section key -> Hkey. simpl. rewrite Hkey. reflexivity.
  - intros [->|(section & -> & Hkey)]; simpl; rewrite ?Hkey;
      destruct (getenv W "OPENAI_API_KEY"); reflexivity.
  - intros section text p a log -> Hkey. simpl. rewrite Hkey. reflexivity.
Qed.

(** X22. In the rephrase flow, once a service has returned a non-empty
    string, the flow returns a response: it keeps the submitted text as
    [original_text] and the rephrased string as [rephrased_text], its
    plagiarism results are those of a dispatch on the rephrased text, and
    every plagiarism call carries the rephrased text, not the original. *)
Theorem rephrase_flow_checks_rephrased_text (text rephrased : string)
    (config : Config) (log log' : list Event) (r : ServiceResult) :
  strip_is_empty text = false →
  load_config W = Returned config →
  rephrase_with_first_enabled W (PStr text)
    (get_enabled_services config "rephrasing") log
    = (Returned (PStr rephrased, r), log') →
  success r = true →
  rephrased ≠ "" →
  ∃ response rest,
    rephrase_text W text log
      = (Returned response,
         log' ++ map (λ s, HttpPost (dispatch_request (PStr rephrased) s))
                   (get_enabled_services config "plagiarism_checkers")
              ++ rest)
    ∧ original_text response = text
    ∧ rephrased_text response = rephrased
    ∧ (check_all_plagiarism_services W (PStr rephrased)
         (get_enabled_services config "plagiarism_checkers") log').1
      = Returned (plagiarism_results response).
Proof.
  intros Hvalid Hload Hrun Hok Hne.
  assert (Htruthy := not_blank_truthy text Hvalid).
  apply str_truthy_true in Hne.
  unfold rephrase_text. rewrite Htruthy, Hvalid. cbn [negb orb].
  unfold mbind, M_bind, try_except, lift_outcome.
  rewrite Hload, Hrun, Hok. cbn [negb truthy].
  fold (str_truthy rephrased). rewrite Hne. cbn [negb].
  unfold check_all_plagiarism_services, detect_all_ai_services.
  destruct (check_all_loop_run W (PStr rephrased)
              (get_enabled_services config "plagiarism_checkers") [] log')
    as (ps & Hps & _).
  rewrite Hps.
  destruct (detect_all_loop_run (PStr rephrased)
              (get_enabled_services config "ai_detectors") []
              (log' ++ map (λ s, HttpPost (dispatch_request (PStr rephrased) s))
                         (get_enabled_services config "plagiarism_checkers")))
    as (az & Haz).
  rewrite Haz.
  match goal with
  | |- context [generate_summary W ?t ?p ?a ?k ?m ?l] =>
      destruct (generate_summary_returns t p a k m l) as (s & rest & Hs)
  end.
  rewrite Hs. simpl.
  do 2 eexists. split; [rewrite <- !app_assoc; reflexivity|].
  repeat split.
Qed.

(** X23. An upload whose file name is missing, empty or does not end with
    ".pdf" (in any letter case) is rejected with the error 400 "Only PDF
    files are supported", whatever text comes with it: the file is not read
    and no call is made. *)
Theorem non_pdf_upload_rejected (text : option string) (file : UploadFile)
    (log : list Event) :
  (∀ name, upload_filename file = Some name →
           endswith (lower name) ".pdf" = false) →
  check_text W P text (Some file) log
    = (Raised (HTTPException 400 "Only PDF files are supported"), log).
Proof.
  intros Hname. unfold check_text, uploaded_text, mbind, M_bind.
  destruct (upload_filename file) as [name|]; [|reflexivity].
  change (default "" (Some name)) with name.
  rewrite (Hname name eq_refl), orb_true_r. reflexivity.
Qed.

(** X24. An upload named as a PDF is handled by what reading and
    extracting give, and the text submitted with the file is ignored: an
    exception of the read leaves the handler unchanged,
    except a ValueError, which becomes the error 400 with its message; a
    ValueError of the extraction becomes the error 400 with its message; and
    an extracted text is checked exactly as if it had been submitted as the
    text, without a file. *)
Theorem pdf_upload_checked_as_text (text : option string) (file : UploadFile)
    (name : string) (log : list Event) :
  upload_filename file = Some name →
  endswith (lower name) ".pdf" = true →
  check_text W P text (Some file) log
  = match upload_read file with
    | ReadRaised e => (Raised e, log)
    | ReadValueError msg => (Raised (HTTPException 400 msg), log)
    | ReadContent content =>
        match extract_text_from_pdf P (BytesIO content) with
        | ValueError msg => (Raised (HTTPException 400 msg), log)
        | Extracted extracted => check_text W P (Some extracted) None log
        end
    end.
Proof.
  intros Hname Hpdf.
  assert (Htruthy : str_truthy name = true).
  { destruct name; [discriminate Hpdf | reflexivity]. }
  unfold check_text, uploaded_text, mbind, M_bind.
  rewrite Hname. change (default "" (Some name)) with name.
  change (opt_truthy (Some name)) with (str_truthy name). rewrite Htruthy, Hpdf.
  cbn [negb orb].
  destruct (upload_read file) as [content|msg|e]; try reflexivity.
  destruct (extract_text_from_pdf P (BytesIO content)); reflexivity.
Qed.

(** X25. For a text that passes validation and a configuration that loads,
    the check handler always returns a response: [original_text] is the
    submitted text, the plagiarism results are those of a dispatch of that
    text to the enabled plagiarism checkers, which are called first and one
    call each, and the summary is the one generated for the two result
    lists under the configured key and model. *)
Theorem check_flow_returns (text : string) (config : Config) (log : list Event) :
  strip_is_empty text = false →
  load_config W = Returned config →
  ∃ response rest,
    check_text W P (Some text) None log
      = (Returned response,
         log ++ map (λ s, HttpPost (dispatch_request (PStr text) s))
                  (get_enabled_services config "plagiarism_checkers")
             ++ rest)
    ∧ CheckResponse.original_text response = text
    ∧ (check_all_plagiarism_services W (PStr text)
         (get_enabled_services config "plagiarism_checkers") log).1
      = Returned (CheckResponse.plagiarism_results response)
    ∧ ∃ log1,
        (generate_summary W (PStr text)
           (CheckResponse.plagiarism_results response)
           (CheckResponse.ai_detection_results response)
           (openai_api_key (get_openai_config W config))
           (openai_model (get_openai_config W config)) log1).1
        = Returned (CheckResponse.summary response).
Proof.
  intros Hvalid Hload.
  assert (Htruthy := not_blank_truthy text Hvalid).
  unfold check_text, uploaded_text, mbind, M_bind, mret, M_ret.
  cbv beta iota. change (default "" (Some text)) with text.
  change (opt_truthy (Some text)) with (str_truthy text).
  rewrite Htruthy, Hvalid. cbn [negb orb].
  unfold try_except, lift_outcome. rewrite Hload.
  unfold check_all_plagiarism_services, detect_all_ai_services.
  destruct (check_all_loop_run W (PStr text)
              (get_enabled_services config "plagiarism_checkers") [] log)
    as (ps & Hps & _).
  rewrite Hps.
  destruct (detect_all_loop_run (PStr text)
              (get_enabled_services config "ai_detectors") []
              (log ++ map (λ s, HttpPost (dispatch_request (PStr text) s))
                        (get_enabled_services config "plagiarism_checkers")))
    as (az & Haz).
  rewrite Haz.
  match goal with
  | |- context [generate_summary W ?t ?p ?a ?k ?m ?l] =>
      destruct (generate_summary_returns t p a k m l) as (s & rest & Hs)
  end.
  rewrite Hs. simpl.
  do 2 eexists. split; [rewrite <- !app_assoc; reflexivity|].
  split; [reflexivity|]. split; [reflexivity|].
  eexists. simpl. simpl in Hs. rewrite Hs. reflexivity.
Qed.

End HandlersMore.

(* ===================================================================== *)
(** ** The further properties at concrete inputs                          *)
(* ===================================================================== *)

Lemma world_mixed_history_free : history_free world_mixed.
Proof. intros log1 log2 r. reflexivity. Qed.

Lemma dispatch_isolated_witness :
  ∃ results log',
    check_all_plagiarism_services world_mixed (PStr "Hello world")
      [svcA; svcC] [] = (Returned results, log')
    ∧ Forall2 (λ s r, (check_plagiarism world_mixed (PStr "Hello world") s []).1
                      = Returned r) [svcA; svcC] results.
Proof.
  exact (dispatch_isolated world_mixed (PStr "Hello world") [svcA; svcC] []
           world_mixed_history_free).
Defined.

Lemma openai_route_call_witness :
  rephrase_text_with_service world_mixed (PStr "Hello world") svcLLM []
  = (Returned (PStr "Fresh words",
               mkServiceResult "OpenAI Rephraser" "rephrasing" true
                 {[ "rephrased_text" := PStr "Fresh words" ]} None),
     [] ++ [ChatCreate (rephrase_request (PStr "Hello world") "k")]).
Proof.
  destruct (openai_route_call world_mixed (PStr "Hello world") svcLLM [] "k"
              eq_refl eq_refl) as (_ & _ & _ & Hreturned & _).
  exact (Hreturned (Some "Fresh words") eq_refl).
Defined.

Lemma rephrase_first_success_or_last_failure_witness :
  ∃ v r log',
    rephrase_with_first_enabled world_mixed (PStr "Hello world")
      [svcA; svcB; svcC] [] = (Returned (v, r), log').
Proof.
  destruct (rephrase_first_success_or_last_failure world_mixed (PStr "Hello world")
              [svcA; svcB; svcC] [])
    as [(pre & s & post & log1 & v & r & log2 & _ & _ & _ & _ & Hrun)
       |(pre & s & log1 & v & r & log2 & _ & _ & _ & _ & Hrun)].
  - discriminate.
  - exists v, r, log2. exact Hrun.
  - exists (PStr ""), r, log2. exact Hrun.
Defined.

Lemma rephrase_failure_has_no_text_witness :
  rephrase_with_first_enabled world_mixed (PStr "Hello world") [svcA; svcB] []
    = (Returned (PStr "",
                 mkServiceResult "B" "rephrasing" false ∅ (Some "Request timed out")),
       [ HttpPost (dispatch_request (PStr "Hello world") svcA);
         HttpPost (dispatch_request (PStr "Hello world") svcB) ])
  ∧ PStr "" = PStr "".
Proof.
  split; [reflexivity|].
  apply (rephrase_failure_has_no_text world_mixed (PStr "Hello world")
           [svcA; svcB] []
           [ HttpPost (dispatch_request (PStr "Hello world") svcA);
             HttpPost (dispatch_request (PStr "Hello world") svcB) ]
           (PStr "")
           (mkServiceResult "B" "rephrasing" false ∅ (Some "Request timed out")));
    reflexivity.
Defined.

(** Two sequences that differ in payload and service type only. *)
Lemma fallback_ignores_payloads_witness :
  _generate_fallback_summary
    [ mkServiceResult "C" "plagiarism" true {[ "score" := PInt 12 ]} None ] [] None
  = _generate_fallback_summary
      [ mkServiceResult "C" "other" true ∅ None ] [] None.
Proof.
  apply fallback_ignores_payloads; reflexivity.
Defined.

(** Two plagiarism results, the failure first, beside no AI-detection
    result. *)
Lemma fallback_one_line_per_result_witness :
  ∃ plagiarism_lines ai_lines : list string,
    plagiarism_lines
    = [ "- **C**: Check completed" +:+ nl; "- **A**: HTTP error: 503" +:+ nl ]
    ∧ ai_lines = [ "No AI detectors were enabled." +:+ nl ].
Proof.
  destruct (fallback_one_line_per_result
              [ mkServiceResult "A" "plagiarism" false ∅ (Some "HTTP error: 503");
                mkServiceResult "C" "plagiarism" true ∅ None ]
              [] None)
    as (pl & al & _ & Hp & _ & _ & Ha).
  exists pl, al. split.
  - destruct (Hp ltac:(discriminate)) as [-> _]. reflexivity.
  - apply Ha. reflexivity.
Defined.

Lemma enabled_services_exactly_witness :
  get_enabled_services config_two_rephrasers "rephrasing" `sublist_of` [svcA; svcB]
  ∧ get_enabled_services empty_config "rephrasing" = [].
Proof.
  destruct (enabled_services_exactly config_two_rephrasers "rephrasing")
    as (Hlisted & _ & _).
  destruct (enabled_services_exactly empty_config "rephrasing")
    as (_ & Hnone & _).
  split; [|apply Hnone; reflexivity].
  apply (Hlisted {[ "rephrasing" := [svcA; svcB]; "plagiarism_checkers" := [svcC] ]});
    reflexivity.
Defined.

Lemma bearer_not_placeholder :
  ∀ name, "Bearer ${KEY}" ≠ "${" +:+ name +:+ "}".
Proof.
  intros name H. cbv beta iota fix delta [String.append] in H. discriminate H.
Qed.

Lemma substitute_placeholder_free_witness :
  ConfigFile._substitute_env_vars world_mixed
    (PList [PStr "Bearer ${KEY}"; PInt 3])
  = PList [PStr "Bearer ${KEY}"; PInt 3].
Proof.
  apply substitute_placeholder_free.
  apply pf_list. intros v Hv.
  apply list_elem_of_In in Hv. destruct Hv as [<-|[<-|[]]].
  - apply pf_str. exact bearer_not_placeholder.
  - apply pf_int.
Defined.

Lemma load_config_path_and_result_witness :
  ConfigFile.load_config world_mixed fs_default_only (Some "other.yaml")
    = Raised (FileNotFoundError "Configuration file not found: other.yaml")
  ∧ ConfigFile.load_config world_mixed fs_default_only None
    = Returned (PDict {[ "model" := PStr "gpt-4" ]}).
Proof.
  destruct (load_config_path_and_result world_mixed fs_default_only)
    as (Hmissing & Hdefault & Hloaded).
  split.
  - apply Hmissing. reflexivity.
  - rewrite Hdefault. simpl getenv. apply Hloaded; try reflexivity.
    apply pf_dict. intros k v Hk.
    apply lookup_singleton_Some in Hk as [_ <-].
    apply pf_str. intros name H.
    cbv beta iota fix delta [String.append] in H. discriminate H.
Defined.

Lemma extract_text_joins_pages_witness :
  extract_text_from_pdf pdf_four_pages (BytesIO sample_pdf)
  = Extracted ("Page one" +:+ nl +:+ nl +:+ "Page four").
Proof.
  apply (extract_text_joins_pages pdf_four_pages sample_pdf
           [Some "Page one"; None; Some ""; Some "Page four"]).
  reflexivity.
Defined.

Lemma blank_text_rejected_witness :
  rephrase_text world_no_config ("  " +:+ nl) []
    = (Raised (HTTPException 400 "No text provided for rephrasing."), [])
  ∧ check_text world_no_config pdf_four_pages (Some ("  " +:+ nl)) None []
    = (Raised (HTTPException 400
                 "No text provided. Please provide text or upload a PDF file."), []).
Proof.
  destruct (blank_text_rejected world_no_config pdf_four_pages ("  " +:+ nl) []
              eq_refl) as (Hr & Hc & _).
  split; [exact Hr | exact Hc].
Defined.

Lemma config_failure_stops_handlers_witness :
  rephrase_text world_no_config "Hello world" []
    = (Raised (HTTPException 500
                 "Configuration file not found: config/services.yaml"), [])
  ∧ check_text world_no_config pdf_four_pages (Some "Hello world") None []
    = (Raised (HTTPException 500
                 "Configuration file not found: config/services.yaml"), []).
Proof.
  exact (config_failure_stops_handlers world_no_config pdf_four_pages
           "Hello world"
           (FileNotFoundError "Configuration file not found: config/services.yaml")
           [] eq_refl eq_refl).
Defined.

(** The first service answers without text: the second one is not tried. *)
Lemma rephrase_flow_aborts_on_empty_text_witness :
  rephrase_text world_empty_rephrase "Hello world" []
    = (Raised (HTTPException 500 "Rephrasing returned empty text"),
       [] ++ map (call_event world_empty_rephrase (PStr "Hello world"))
               ([] ++ [svcA])).
Proof.
  apply (rephrase_flow_aborts_on_empty_text world_empty_rephrase
           "Hello world" config_two_rephrasers [] [svcB] svcA [] []
           [ HttpPost (dispatch_request (PStr "Hello world") svcA) ]
           (PStr "")
           (mkServiceResult "A" "rephrasing" true {[ "score" := PInt 12 ]} None));
    reflexivity.
Defined.

(** The key is configured as the empty string and the environment holds a
    key: the summary is the deterministic one. *)
Lemma openai_key_precedence_witness :
  openai_api_key (get_openai_config world_env_key config_empty_key) = ""
  ∧ getenv world_env_key "OPENAI_API_KEY" = Some "sk-env".
Proof.
  split; [|reflexivity].
  apply (proj1 (openai_key_precedence world_env_key config_empty_key)
           {[ "api_key" := "" ]}); reflexivity.
Defined.

Lemma rephrase_flow_checks_rephrased_text_witness :
  ∃ response rest,
    rephrase_text world_second_rephraser "Hello world" []
      = (Returned response,
         [ HttpPost (dispatch_request (PStr "Hello world") svcA);
           HttpPost (dispatch_request (PStr "Hello world") svcC) ]
         ++ map (λ s, HttpPost (dispatch_request (PStr "Better text") s))
              (get_enabled_services config_second_rephraser "plagiarism_checkers")
         ++ rest)
    ∧ original_text response = "Hello world"
    ∧ rephrased_text response = "Better text".
Proof.
  destruct (rephrase_flow_checks_rephrased_text world_second_rephraser
              "Hello world" "Better text" config_second_rephraser []
              [ HttpPost (dispatch_request (PStr "Hello world") svcA);
                HttpPost (dispatch_request (PStr "Hello world") svcC) ]
              (mkServiceResult "C" "rephrasing" true
                 {[ "rephrased_text" := PStr "Better text" ]} None)
              eq_refl eq_refl eq_refl eq_refl ltac:(discriminate))
    as (response & rest & Hrun & Ho & Hr & _).
  exists response, rest. split; [exact Hrun|]. split; [exact Ho | exact Hr].
Defined.

Lemma non_pdf_upload_rejected_witness :
  check_text world_mixed pdf_four_pages (Some "Hello world") (Some upload_notes) []
    = (Raised (HTTPException 400 "Only PDF files are supported"), []).
Proof.
  apply non_pdf_upload_rejected.
  intros name [= <-]. reflexivity.
Defined.

(** The upload "Report.PDF" is checked as the text of its two pages. *)
Lemma pdf_upload_checked_as_text_witness :
  check_text world_mixed pdf_four_pages (Some "ignored") (Some upload_report) []
  = check_text world_mixed pdf_four_pages
      (Some ("Page one" +:+ nl +:+ nl +:+ "Page four")) None [].
Proof.
  apply (pdf_upload_checked_as_text world_mixed pdf_four_pages (Some "ignored")
           upload_report "Report.PDF" []); reflexivity.
Defined.

Lemma check_flow_returns_witness :
  ∃ response rest,
    check_text world_second_rephraser pdf_four_pages (Some "Hello world") None []
      = (Returned response,
         [] ++ map (λ s, HttpPost (dispatch_request (PStr "Hello world") s))
                 (get_enabled_services config_second_rephraser "plagiarism_checkers")
            ++ rest)
    ∧ CheckResponse.original_text response = "Hello world".
Proof.
  destruct (check_flow_returns world_second_rephraser pdf_four_pages
              "Hello world" config_second_rephraser [] eq_refl eq_refl)
    as (response & rest & Hrun & Ho & _).
  exists response, rest. split; [exact Hrun | exact Ho].
Defined.

Lemma openai_empty_completion_is_success_witness :
  rephrase_text_with_openai world_mute (PStr "Hello world") "k" []
  = (Returned (PStr "",
               mkServiceResult "OpenAI Rephraser" "rephrasing" true
                 {[ "rephrased_text" := PStr "" ]} None),
     [] ++ [ChatCreate (rephrase_request (PStr "Hello world") "k")]).
Proof.
  apply (openai_empty_completion_is_success world_mute (PStr "Hello world") "k" []
           None); reflexivity.
Defined.
